(** * ECF-TST forest-cover-loss pipeline: a shallow embedding of the two
    Earth Engine scripts and the properties of their feature engineering,
    class balancing, grid search and post-processing.

    Layout
    - [EE]                  the Earth Engine operations the scripts call,
                            with the semantics the Earth Engine API
                            reference documents;
    - [Mapping]             Code/ECF_TST_Annual_FCL_Mapping.js;
    - [Training]            the model training and optimisation script;
    - [MappingFeatures]     the remaining trajectory statistics, the
                            forest mask and the feature selection of the
                            mapping script;
    - [MappingProperties],
      [TrainingProperties]  what holds of them;
    - [TrainingFacts],
      [MappingFacts]        further properties of the two scripts.

    Numbers are exact rationals ([Q]): an idealisation of the doubles Earth
    Engine computes with.  A masked pixel is [None]. *)

From Stdlib Require Import ZArith QArith Qround Qabs Qminmax.
From Stdlib Require Import List Permutation Sorted String DecimalString Bool Lia Lqa.
Import ListNotations.
Open Scope Q_scope.

(* ================================================================== *)
(** * Earth Engine operations                                          *)
(* ================================================================== *)

Module EE.

(** ** Errors.  A JavaScript exception is raised while the script builds
    its expression graph (client side); a server error is raised when the
    graph is evaluated. *)
Inductive Error : Type :=
| ReferenceError (name : string)
| ServerError (what : string).

Inductive result (A : Type) : Type :=
| Ok (a : A)
| Raise (e : Error).
Arguments Ok {A} a.
Arguments Raise {A} e.

Definition bind {A B : Type} (m : result A) (k : A -> result B) : result B :=
  match m with
  | Ok a => k a
  | Raise e => Raise e
  end.

Notation "'do' x <- m ; k" := (bind m (fun x => k))
  (at level 10, x name, m at level 100, k at level 200).

Fixpoint mapM {A B : Type} (f : A -> result B) (l : list A) : result (list B) :=
  match l with
  | [] => Ok []
  | a :: l' => do b <- f a; do bs <- mapM f l'; Ok (b :: bs)
  end.

(** ** Numbers *)

(** [ee.Number.divide], [ee.Image.divide]: "Divides the first value by the
    second, returning 0 for division by 0." *)
Definition divide (a b : Q) : Q := if Qeq_bool b 0 then 0 else a / b.

(** [ee.Number.round]: the nearest integer. *)
Definition round (a : Q) : Z := Qfloor (a + (1 # 2)).

(** [ee.Number.int]: truncation towards zero. *)
Definition int (a : Q) : Z := Z.quot (Qnum a) (Zpos (Qden a)).

(** [ee.Number.sqrt], rounded down to nine decimals. *)
Definition sqrt (a : Q) : Q :=
  Z.sqrt (Qfloor (a * 1000000000000000000)) # 1000000000.

Definition of_bool (b : bool) : Q := if b then 1 else 0.

(** ** Objects and [ee.Algorithms.If].  "If the condition is not a boolean,
    it is interpreted as a boolean by the following rules: numbers that are
    equal to 0 or a NaN are false; empty strings, lists and dictionaries are
    false; null is false; everything else is true." *)

Definition Pixel : Type := option Q.
Definition Band : Type := Z -> Z -> Pixel.
Definition Image : Type := list (string * Band).

Inductive Object : Type :=
| ONull
| ONumber (q : Q)
| OString (s : string)
| OImage (i : Image).

Definition truthy (o : Object) : bool :=
  match o with
  | ONull => false
  | ONumber q => negb (Qeq_bool q 0)
  | OString s => negb (String.eqb s "")
  | OImage _ => true
  end.

Definition Algorithms_If {A : Type} (condition : Object) (trueCase falseCase : A) : A :=
  if truthy condition then trueCase else falseCase.

(** ** Images *)

Definition px1 (f : Q -> Q) (p : Pixel) : Pixel :=
  match p with
  | Some v => Some (f v)
  | None => None
  end.

Definition px2 (f : Q -> Q -> Q) (p q : Pixel) : Pixel :=
  match p, q with
  | Some v, Some w => Some (f v w)
  | _, _ => None
  end.

Definition band1 (f : Q -> Q) (b : Band) : Band := fun x y => px1 f (b x y).
Definition band2 (f : Q -> Q -> Q) (a b : Band) : Band :=
  fun x y => px2 f (a x y) (b x y).

(** [ee.Image(v)], [ee.Image.constant(v)] *)
Definition constant (v : Q) : Image := [("constant"%string, fun _ _ => Some v)].

Definition bandNames (img : Image) : list string := map fst img.

Fixpoint lookup (n : string) (img : Image) : option Band :=
  match img with
  | [] => None
  | (m, b) :: rest => if String.eqb n m then Some b else lookup n rest
  end.

(** the value of band [n] at pixel [(x, y)] *)
Definition sample (img : Image) (n : string) (x y : Z) : Pixel :=
  match lookup n img with
  | Some b => b x y
  | None => None
  end.

Fixpoint select (names : list string) (img : Image) : result Image :=
  match names with
  | [] => Ok []
  | n :: ns =>
      match lookup n img with
      | None => Raise (ServerError (String.append "Image.select: no band " n))
      | Some b => do r <- select ns img; Ok ((n, b) :: r)
      end
  end.

Definition rename (names : list string) (img : Image) : result Image :=
  if Nat.eqb (List.length names) (List.length img)
  then Ok (combine names (map snd img))
  else Raise (ServerError "Image.rename: band count mismatch").

Definition string_of_nat (n : nat) : string :=
  NilEmpty.string_of_uint (Nat.to_uint n).

(** [addBands] without [overwrite]: a band whose name is taken "will be
    renamed with a numerical suffix ([foo] to [foo_1] unless [foo_1]
    exists, then [foo_2] unless it exists, etc)". *)
Fixpoint numbered (fuel k : nat) (n : string) (taken : list string) : string :=
  let candidate := (n ++ "_" ++ string_of_nat k)%string in
  match fuel with
  | O => candidate
  | S fuel' =>
      if existsb (String.eqb candidate) taken
      then numbered fuel' (S k) n taken
      else candidate
  end.

Definition fresh_name (taken : list string) (n : string) : string :=
  if existsb (String.eqb n) taken
  then numbered (List.length taken) 1 n taken
  else n.

Definition addBand (img : Image) (nb : string * Band) : Image :=
  (img ++ [(fresh_name (bandNames img) (fst nb), snd nb)])%list.

(** [dst.addBands(src)]: the bands of [src] are appended one by one, each
    under its own name unless that name is taken. *)
Definition addBands (img extra : Image) : Image := fold_left addBand extra img.

Definition unary (f : Q -> Q) (img : Image) : Image :=
  map (fun nb => (fst nb, band1 f (snd nb))) img.

Fixpoint pairwise (f : Q -> Q -> Q) (a b : Image) : Image :=
  match a, b with
  | (n, x) :: a', (_, y) :: b' => (n, band2 f x y) :: pairwise f a' b'
  | _, _ => []
  end.

(** Binary image operators: "if either image has only 1 band, then it is
    used against all the bands in the other image; if the images have the
    same number of bands they are used pairwise in the natural order". *)
Definition binary (f : Q -> Q -> Q) (a b : Image) : result Image :=
  match a, b with
  | _, [(_, y)] => Ok (map (fun nb => (fst nb, band2 f (snd nb) y)) a)
  | [(_, x)], _ => Ok (map (fun nb => (fst nb, band2 f x (snd nb))) b)
  | _, _ =>
      if Nat.eqb (List.length a) (List.length b)
      then Ok (pairwise f a b)
      else Raise (ServerError "Image: band count mismatch")
  end.

Definition add := binary Qplus.
Definition subtract := binary Qminus.
Definition multiply := binary Qmult.
Definition image_divide := binary divide.
Definition image_eq := binary (fun v w => of_bool (Qeq_bool v w)).
Definition abs := unary Qabs.

(** [ee.Image.normalizedDifference]: "(first - second) / (first + second)
    ... a negative pixel value in either input band will cause the output
    pixel to be masked".  The output band is named [nd]. *)
Definition nd_px (p q : Pixel) : Pixel :=
  match p, q with
  | Some v, Some w =>
      if Qle_bool 0 v && Qle_bool 0 w then Some (divide (v - w) (v + w)) else None
  | _, _ => None
  end.

Definition normalizedDifference (first second : string) (img : Image) : result Image :=
  do s <- select [first; second] img;
  match s with
  | [(_, a); (_, b)] => Ok [("nd"%string, fun x y => nd_px (a x y) (b x y))]
  | _ => Raise (ServerError "Image.normalizedDifference")
  end.

End EE.

Import EE.

(* ================================================================== *)
(** * Annual FCL mapping script                                        *)
(* ================================================================== *)

Module Mapping.

Open Scope string_scope.

Definition INDEX_BANDS : list string :=
  ["NBR"; "NDVI"; "NDMI"; "NDBI"; "RVI"; "SAVI"; "EVI"; "DVI"].

Definition CHG_RA_NAMES : list string := map (fun b => b ++ "_chg_ra") INDEX_BANDS.
Definition RECO_S_NAMES : list string := map (fun b => b ++ "_reco_s") INDEX_BANDS.

(** The band names of a yearly Landsat surface-reflectance composite. *)
Definition SR_BANDS : list string := ["B1"; "B2"; "B3"; "B4"; "B5"; "B7"].

(** ** Index Calculator: [addIndices] *)

(** [img.expression] over named single-band operands, pixel by pixel. *)
Definition expression2 (f : Q -> Q -> Q) (a b : Image) : result Image :=
  binary f a b.

Definition expression3 (f : Q -> Q -> Q -> Q) (a b c : Image) : result Image :=
  match a, b, c with
  | [(n, x)], [(_, y)], [(_, z)] =>
      Ok [(n, fun i j =>
                match x i j, y i j, z i j with
                | Some u, Some v, Some w => Some (f u v w)
                | _, _, _ => None
                end)]
  | _, _, _ => Raise (ServerError "Image.expression")
  end.

Definition times1000 (img : Image) : Image := unary (fun v => v * 1000) img.

Definition nbr (img : Image) : result Image :=
  do n <- normalizedDifference "B4" "B7" img; rename ["NBR"] (times1000 n).
Definition ndvi (img : Image) : result Image :=
  do n <- normalizedDifference "B4" "B3" img; rename ["NDVI"] (times1000 n).
Definition ndmi (img : Image) : result Image :=
  do n <- normalizedDifference "B4" "B5" img; rename ["NDMI"] (times1000 n).
Definition ndbi (img : Image) : result Image :=
  do n <- normalizedDifference "B5" "B4" img; rename ["NDBI"] (times1000 n).
Definition rvi (img : Image) : result Image :=
  do b4 <- select ["B4"] img;
  do b3 <- select ["B3"] img;
  do r <- image_divide b4 b3;
  rename ["RVI"] (times1000 r).
Definition dvi (img : Image) : result Image :=
  do b4 <- select ["B4"] img;
  do b3 <- select ["B3"] img;
  do r <- subtract b4 b3;
  rename ["DVI"] r.
Definition savi (img : Image) : result Image :=
  do NIR <- select ["B4"] img;
  do RED <- select ["B3"] img;
  do r <- expression2
            (fun nir red => divide ((1 + 0.5) * (nir - red)) (nir + red + 0.5))
            NIR RED;
  rename ["SAVI"] (times1000 r).
Definition evi (img : Image) : result Image :=
  do NIR <- select ["B4"] img;
  do RED <- select ["B3"] img;
  do BLUE <- select ["B1"] img;
  do r <- expression3
            (fun nir red blue =>
               2.5 * divide (nir - red) (nir + 6 * red - 7.5 * blue + 1))
            NIR RED BLUE;
  rename ["EVI"] (times1000 r).

Definition addIndices (img : Image) : result Image :=
  do nbr <- nbr img;
  do ndvi <- ndvi img;
  do ndmi <- ndmi img;
  do ndbi <- ndbi img;
  do rvi <- rvi img;
  do dvi <- dvi img;
  do savi <- savi img;
  do evi <- evi img;
  Ok (addBands (addBands (addBands (addBands (addBands (addBands (addBands
      (addBands img nbr) ndvi) ndmi) ndbi) rvi) savi) evi) dvi).

(** ** Texture Extractor: [addFirstOrderTexture] *)

(** [ee.Kernel.square(radius, 'pixels')]: "radius: the radius of the kernel
    to generate"; the window is [(2 radius + 1)] pixels on a side. *)
Definition range (lo hi : Z) : list Z :=
  map (fun i => lo + Z.of_nat i)%Z (seq 0 (Z.to_nat (hi - lo + 1))).

Definition Kernel : Type := list (Z * Z).

Definition Kernel_square (radius : Z) : Kernel :=
  flat_map (fun dx => map (fun dy => (dx, dy)) (range (- radius) radius))
           (range (- radius) radius).

Inductive Reducer : Type :=
| Reducer_mean
| Reducer_stdDev.

Definition sum (vs : list Q) : Q := fold_right Qplus 0 vs.

Definition mean (vs : list Q) : Q := divide (sum vs) (inject_Z (Z.of_nat (List.length vs))).

Definition variance (vs : list Q) : Q :=
  mean (map (fun v => (v - mean vs) * (v - mean vs)) vs).

Definition reduceValues (r : Reducer) (vs : list Q) : Pixel :=
  match vs with
  | [] => None
  | _ =>
      match r with
      | Reducer_mean => Some (mean vs)
      | Reducer_stdDev => Some (EE.sqrt (variance vs))
      end
  end.

(** the unmasked values of band [b] under kernel [k] centred on [(x, y)] *)
Definition window (k : Kernel) (b : Band) (x y : Z) : list Q :=
  flat_map (fun d => match b (x + fst d)%Z (y + snd d)%Z with
                     | Some v => [v]
                     | None => []
                     end) k.

(** [image.reduceNeighborhood(reducer, kernel)], with the default
    [skipMasked = true]: a masked input pixel stays masked. *)
Definition reduceNeighborhood (r : Reducer) (k : Kernel) (img : Image) : Image :=
  map (fun nb =>
         (fst nb,
          fun x y => match snd nb x y with
                     | None => None
                     | Some _ => reduceValues r (window k (snd nb) x y)
                     end)) img.

Definition addFirstOrderTexture (image : Image) : result Image :=
  let meanReducer := Reducer_mean in
  let stdReducer := Reducer_stdDev in
  let kernel := Kernel_square 3 in
  let texture band reducer name :=
    do b <- select [band] image;
    rename [name] (reduceNeighborhood reducer kernel b) in
  do B1mean <- texture "B1" meanReducer "B1_mean";
  do B1std <- texture "B1" stdReducer "B1_stdDev";
  do B2mean <- texture "B2" meanReducer "B2_mean";
  do B2std <- texture "B2" stdReducer "B2_stdDev";
  do B3mean <- texture "B3" meanReducer "B3_mean";
  do B3std <- texture "B3" stdReducer "B3_stdDev";
  do B4mean <- texture "B4" meanReducer "B4_mean";
  do B4std <- texture "B4" stdReducer "B4_stdDev";
  do B5mean <- texture "B5" meanReducer "B5_mean";
  do B5std <- texture "B5" stdReducer "B5_stdDev";
  do B7mean <- texture "B7" meanReducer "B7_mean";
  do B7std <- texture "B7" stdReducer "B7_stdDev";
  Ok (addBands (addBands (addBands (addBands (addBands (addBands
      (addBands (addBands (addBands (addBands (addBands (addBands image
        B1mean) B1std) B2mean) B2std) B3mean) B3std)
        B4mean) B4std) B5mean) B5std) B7mean) B7std).

(** ** Temporal Trajectory Aggregator: [calculateAnnualFeatures] *)

(** An annual collection: each image with its [composite_year] property. *)
Definition ImageCollection : Type := list (Z * Image).

(** [collection.filter(...).first()]; an empty collection has no first
    image, and any use of it fails. *)
Definition first (c : ImageCollection) : result Image :=
  match c with
  | [] => Raise (ServerError "first: empty collection")
  | (_, img) :: _ => Ok img
  end.

Fixpoint insert_by_year (yi : Z * Image) (c : ImageCollection) : ImageCollection :=
  match c with
  | [] => [yi]
  | zj :: c' => if (fst yi <=? fst zj)%Z then yi :: c else zj :: insert_by_year yi c'
  end.

(** [collection.sort('composite_year')] *)
Definition sort_by_year (c : ImageCollection) : ImageCollection :=
  fold_right insert_by_year [] c.

Definition addYearBand (yi : Z * Image) : Z * Image :=
  (fst yi, addBands (snd yi) [("year", fun _ _ => Some (inject_Z (fst yi)))]).

Definition imgTarget (tsCollection : ImageCollection) (targetYear : Z) : result Image :=
  first (filter (fun yi => fst yi =? targetYear)%Z tsCollection).

Definition imgPrev1 (tsCollection : ImageCollection) (targetYear : Z) : result Image :=
  first (filter (fun yi => fst yi =? targetYear - 1)%Z tsCollection).

Definition histCollection_3y (tsCollection : ImageCollection) (targetYear : Z)
  : ImageCollection :=
  map addYearBand
      (sort_by_year
         (filter (fun yi => (targetYear - 3 <=? fst yi) && (fst yi <=? targetYear - 1))%Z
                 tsCollection)).

Definition histCollection (tsCollection : ImageCollection) (targetYear : Z)
  : ImageCollection :=
  map addYearBand
      (sort_by_year (filter (fun yi => fst yi <? targetYear)%Z tsCollection)).

(** "Helper: Safe division to avoid division by zero."  The condition
    handed to [ee.Algorithms.If] is the image [denom.eq(0)]. *)
Definition safeDivide (num denom : Image) : result Image :=
  do c <- image_eq denom (constant 0);
  Algorithms_If (OImage c) (Ok (constant 0)) (image_divide num denom).

(** "Calculate relative change between consecutive years." *)
Definition chg_ra_target (imgTarget imgPrev1 : Image) : result Image :=
  do diff <- subtract imgTarget imgPrev1;
  do denom <- add (EE.abs imgPrev1) (constant 0.00001);
  do sd <- safeDivide (EE.abs imgPrev1) denom;
  do q <- image_divide diff sd;
  do s <- select INDEX_BANDS q;
  rename CHG_RA_NAMES s.

(** *** Linear regression *)

(** A pixel of an array image: a two-dimensional array, row by row. *)
Definition Array : Type := list (list Q).

(** the band values of one image at a pixel, when none of them is masked *)
Fixpoint values_at (img : Image) (x y : Z) : option (list Q) :=
  match img with
  | [] => Some []
  | (_, b) :: rest =>
      match b x y, values_at rest x y with
      | Some v, Some vs => Some (v :: vs)
      | _, _ => None
      end
  end.

(** the inputs a reducer sees at a pixel: one row per image whose selected
    bands are all unmasked there *)
Fixpoint observations (imgs : list Image) (x y : Z) : list (list Q) :=
  match imgs with
  | [] => []
  | img :: rest =>
      match values_at img x y with
      | Some row => row :: observations rest x y
      | None => observations rest x y
      end
  end.

(** [ee.Reducer.linearRegression({numX: 1, numY: n})]: each input row is
    one independent value followed by [n] dependent values; the output
    [coefficients] is the [numX] by [numY] array of the least-squares
    solution of [Y = X b].  No constant term is fitted unless a constant
    band is among the independent variables; with [numX = 1] the solution
    is [sum (x * y) / sum (x * x)] per dependent variable.  The outputs
    are null "if the system is underdetermined, e.g. the number of inputs
    is less than or equal to numX": here with at most one input row. *)
Definition linearRegression1 (numY : nat) (rows : list (list Q)) : option Array :=
  if (List.length rows <=? 1)%nat
  then None
  else
    let xs := map (fun row => hd 0 row) rows in
    let sxx := sum (map (fun x => x * x) xs) in
    Some [map (fun j =>
                 divide
                   (sum (map (fun row => hd 0 row * nth (S j) row 0) rows))
                   sxx)
              (seq 0 numY)].

(** [arrayProject(axes)]: "Projects the array in each pixel to a lower
    dimensional space by specifying the axes to retain.  Dropped axes must
    be at most length 1."  Here for [axes = [0]]. *)
Definition arrayProject0 (a : Array) : result (list Q) :=
  if forallb (fun row => (List.length row <=? 1)%nat) a
  then Ok (map (fun row => hd 0 row) a)
  else Raise (ServerError "arrayProject: dropped axes must be at most length 1").

(** [arrayFlatten([labels])] of a one-dimensional array *)
Definition arrayFlatten (labels : list string) (v : list Q)
  : result (list (string * Q)) :=
  if Nat.eqb (List.length labels) (List.length v)
  then Ok (combine labels v)
  else Raise (ServerError "arrayFlatten: label count mismatch").

(** [calculateTrend(collection, suffix)], evaluated at pixel [(x, y)]: the
    named trend values there, [None] where the regression has no input. *)
Definition regression (collection : ImageCollection) (x y : Z)
  : result (option Array) :=
  do selected <- mapM (fun yi => select ("year" :: INDEX_BANDS) (snd yi)) collection;
  Ok (linearRegression1 (List.length INDEX_BANDS) (observations selected x y)).

Definition calculateTrend (collection : ImageCollection) (suffix : string)
    (x y : Z) : result (option (list (string * Q))) :=
  do coefficients <- regression collection x y;
  match coefficients with
  | None => Ok None
  | Some coefficients =>
      do projected <- arrayProject0 coefficients;
      do flat <- arrayFlatten INDEX_BANDS projected;
      Ok (Some (combine (map (fun b => b ++ "_" ++ suffix) INDEX_BANDS)
                        (map snd flat)))
  end.

Definition fullTrend (tsCollection : ImageCollection) (targetYear : Z) :=
  calculateTrend (histCollection tsCollection targetYear) "trend".

Definition recoveryTrend (tsCollection : ImageCollection) (targetYear : Z) :=
  calculateTrend (histCollection_3y tsCollection targetYear) "reco_s".

(** ** Predictor and Post-Processor: [focal_mode] *)

Section FocalMode.

(** How the mode reducer settles a tie between two equally frequent values
    is not fixed by the API reference; [tie v w] says whether [v] is
    preferred over [w]. *)
Variable tie : Q -> Q -> bool.

Definition occurrences (v : Q) (vs : list Q) : nat :=
  List.length (filter (Qeq_bool v) vs).

Definition better (vs : list Q) (v best : Q) : bool :=
  (occurrences best vs <? occurrences v vs)%nat
  || ((occurrences v vs =? occurrences best vs)%nat && tie v best).

Definition mode (vs : list Q) : Pixel :=
  match vs with
  | [] => None
  | v :: rest =>
      Some (fold_left (fun best w => if better vs w best then w else best) rest v)
  end.

(** one pass of the mode filter over a square window *)
Definition focal_mode_pass (radius : Z) (img : Image) : Image :=
  map (fun nb => (fst nb, fun x y => mode (window (Kernel_square radius) (snd nb) x y)))
      img.

(** [image.focal_mode({radius, kernelType: 'square', iterations})] *)
Fixpoint focal_mode (radius : Z) (iterations : nat) (img : Image) : Image :=
  match iterations with
  | O => img
  | S n => focal_mode radius n (focal_mode_pass radius img)
  end.

(** "Apply post-processing: focal smoothing (3x3 mode filter)." *)
Definition smoothed (classified : Image) : Image := focal_mode 1 1 classified.

End FocalMode.

End Mapping.

(* ================================================================== *)
(** * Model training and optimisation script                           *)
(* ================================================================== *)

Module Training.

Open Scope string_scope.

(** ** Data *)

(** A sample point: its index in the sample library and its parsed
    [label] (0 stable, 1..3 forest-cover-loss sub-types).  Its feature
    values are read by the classifier only. *)
Record Feature : Type := mkFeature { fid : nat; label : Z }.

Definition FeatureCollection : Type := list Feature.

Record RFParams : Type :=
  mkRFParams { trees : Q; leafPop : Q; bagFrac : Q; splitVar : Q }.

Record Combination : Type :=
  mkCombination { targetSizes : list Q; rfParams : RFParams }.

(** ** Hyperparameter grid *)

Definition targetSizesGrid : list (list Q) :=
  [ [400; 400; 600];
    [400; 400; 800];
    [400; 500; 700];
    [500; 400; 700];
    [500; 500; 600];
    [500; 500; 700];
    [500; 500; 800];
    [600; 400; 700];
    [600; 500; 800] ].

Definition rfParamsGrid : list RFParams :=
  [ mkRFParams 50 1 0.5 0.5;
    mkRFParams 50 1 0.7 0.7;
    mkRFParams 50 2 0.6 0.6;
    mkRFParams 100 1 0.5 0.7;
    mkRFParams 100 2 0.6 0.6;
    mkRFParams 100 5 0.7 0.5;
    mkRFParams 150 2 0.7 0.5;
    mkRFParams 150 5 0.5 0.7;
    mkRFParams 200 5 0.6 0.6 ].

(** [targetSizesGrid.map(... rfParamsGrid.map(...)).flatten()] *)
Definition allCombinations : list Combination :=
  List.concat (map (fun targetSizes =>
                 map (fun rfParams => mkCombination targetSizes rfParams) rfParamsGrid)
              targetSizesGrid).

(** ** Lists and dictionaries *)

(** [ee.List.get], [ee.List.getNumber] *)
Definition get {A : Type} (l : list A) (i : nat) : result A :=
  match nth_error l i with
  | Some v => Ok v
  | None => Raise (ServerError "List.get: index out of range")
  end.

(** The histogram of a column: the number of occurrences under each value
    that occurs.  Its keys are the label values (['0'], ['1'], ...). *)
Definition Dictionary : Type := list (Z * Z).

Fixpoint increment (k : Z) (d : Dictionary) : Dictionary :=
  match d with
  | [] => [(k, 1%Z)]
  | (k', n) :: rest =>
      if (k =? k')%Z then (k', (n + 1)%Z) :: rest else (k', n) :: increment k rest
  end.

Definition frequencyHistogram (column : list Z) : Dictionary :=
  fold_right increment [] column.

Fixpoint getNumber (d : Dictionary) (k : Z) : result Q :=
  match d with
  | [] => Raise (ServerError "Dictionary.get: key not found")
  | (k', n) :: rest => if (k =? k')%Z then Ok (inject_Z n) else getNumber rest k
  end.

(** ** Collections *)

Definition labelled (c : Z) (features : FeatureCollection) : FeatureCollection :=
  filter (fun f => (label f =? c)%Z) features.

(** [a.merge(b)]: all the elements of both collections *)
Definition merge (a b : FeatureCollection) : FeatureCollection := (a ++ b)%list.

Fixpoint insert_by (key : Feature -> Q) (f : Feature) (l : FeatureCollection)
  : FeatureCollection :=
  match l with
  | [] => [f]
  | g :: l' => if Qle_bool (key f) (key g) then f :: l else g :: insert_by key f l'
  end.

Definition sort_by (key : Feature -> Q) (l : FeatureCollection) : FeatureCollection :=
  fold_right (insert_by key) [] l.

(** [collection.limit(max, property, true)]: the first [max] elements in
    ascending order of the property; never more than the collection has. *)
Definition limit (max : Z) (key : Feature -> Q) (l : FeatureCollection)
  : FeatureCollection :=
  firstn (Z.to_nat max) (sort_by key l).

(** ** Confusion matrix *)

Definition maxValue (pairs : list (Z * Z)) : Z :=
  fold_right (fun p m => Z.max (Z.max (fst p) (snd p)) m) (-1)%Z pairs.

Definition cell (pairs : list (Z * Z)) (actual predicted : Z) : Z :=
  Z.of_nat (List.length
              (filter (fun p => (fst p =? actual) && (snd p =? predicted))%Z pairs)).

(** [errorMatrix(actual, predicted)] without an order: "the values are
    assumed to be contiguous and span the range 0 to maxValue"; rows are
    actual values, columns predicted values. *)
Definition errorMatrix (pairs : list (Z * Z)) : list (list Z) :=
  let values := Mapping.range 0 (maxValue pairs) in
  map (fun i => map (fun j => cell pairs i j) values) values.

Definition total (row : list Z) : Z := fold_right Z.add 0%Z row.

Definition diagonal (m : list (list Z)) : list Z :=
  map (fun i => nth i (nth i m []) 0%Z) (seq 0 (List.length m)).

Definition column (m : list (list Z)) (j : nat) : list Z :=
  map (fun row => nth j row 0%Z) m.

(** A ratio of two counts.  For a zero denominator the API reference does
    not say what the matrix methods return (the rule "returning 0 for
    division by 0" is given for [ee.Number.divide] and [ee.Image.divide]
    only): no value is assumed then. *)
Definition ratio (a b : Z) : option Q :=
  if (b =? 0)%Z then None else Some (inject_Z a / inject_Z b).

Definition matrix_accuracy (m : list (list Z)) : option Q :=
  ratio (total (diagonal m)) (total (map total m)).

Definition matrix_kappa (m : list (list Z)) : option Q :=
  let n := total (map total m) in
  let observed := ratio (total (diagonal m)) n in
  let expected :=
    ratio (total (map (fun i => (total (nth i m []) * total (column m i))%Z)
                      (seq 0 (List.length m))))
          (n * n) in
  match observed, expected with
  | Some o, Some e => if Qeq_bool (1 - e) 0 then None else Some ((o - e) / (1 - e))
  | _, _ => None
  end.

(** [producersAccuracy()]: "(correct / total) for each row", an array with
    one row per class and a single column. *)
Definition producersAccuracy (m : list (list Z)) : list (list (option Q)) :=
  map (fun i => [ratio (nth i (nth i m []) 0%Z) (total (nth i m []))])
      (seq 0 (List.length m)).

(** [array.toList()] *)
Definition toList (a : list (list (option Q))) : list (list (option Q)) := a.

(** ** Evaluation Record *)

Record EvaluationRecord : Type := mkRecord {
  eco_zone : Z;
  iteration : Z;
  class1_target : Q;
  class2_target : Q;
  class3_target : Q;
  num_trees : Q;
  min_leaf_pop : Q;
  bag_frac : Q;
  split_vars : Z;
  overall_accuracy : option Q;
  kappa : option Q;
  recall_0 : list (option Q);
  recall_1 : list (option Q);
  recall_2 : list (option Q);
  recall_3 : list (option Q)
}.

Section Script.

(** The region the script is set to, its optimal feature subset, and its
    sample library after the filter and parse steps. *)
Variable ECO_ZONE_ID : Z.
Variable optimalFeatures : list string.
Variable completeSamples : FeatureCollection.

(** [randomColumn(name, seed)]: the pseudo-random number in [0, 1) given to
    a feature under a seed. *)
Variable randomValue : Z -> Feature -> Q.

(** [ee.Classifier.smileRandomForest(...).train(...)]: the label a forest
    of the given configuration, trained on the given set, gives a sample. *)
Variable smileRandomForest :
  Q -> Q -> Z -> Q -> FeatureCollection -> Feature -> Z.

(** ** [oversampleClass]: "Performs oversampling for a specific class to
    reach a target size." *)
Definition oversampleClass (features : FeatureCollection) (targetClass : Z)
    (multiplier : result Q) : result FeatureCollection :=
  let classSamples := labelled targetClass features in
  let size := Z.of_nat (List.length classSamples) in
  do multiplier <- multiplier;
  let targetSize := EE.round (Qmax (multiplier * inject_Z size) 0) in
  let overSize := (targetSize - size)%Z in
  let overSampled :=
    Algorithms_If (ONumber (of_bool (0 <? overSize)%Z))
                  (limit overSize (randomValue 0) classSamples)
                  [] in
  Ok (merge classSamples overSampled).

(** ** Global scope of the script.  A call of a name looks it up; a name
    that is not declared raises [ReferenceError]. *)
Definition JSFunction : Type :=
  FeatureCollection -> Z -> result Q -> result FeatureCollection.

Definition Scope : Type := string -> option JSFunction.

Definition globals : Scope :=
  fun name => if String.eqb name "oversampleClass" then Some oversampleClass else None.

Definition call (scope : Scope) (name : string) (features : FeatureCollection)
    (targetClass : Z) (multiplier : result Q)
  : result (result FeatureCollection) :=
  match scope name with
  | Some f => Ok (f features targetClass multiplier)
  | None => Raise (ReferenceError name)
  end.

(** ** [evaluateParams] *)

(** 5.1  the 75 / 25 split under the seed [iteration + 100] *)
Definition trainingOriginal (iteration : Z) : FeatureCollection :=
  filter (fun f => negb (Qle_bool 0.75 (randomValue (iteration + 100) f)))
         completeSamples.

Definition testingSet (iteration : Z) : FeatureCollection :=
  filter (fun f => Qle_bool 0.75 (randomValue (iteration + 100) f)) completeSamples.

(** 5.2  class balancing.  The outer result is what running the script
    gives; the inner one what evaluating the collection gives. *)
Definition classSizesDict (trainingOriginal : FeatureCollection) : Dictionary :=
  frequencyHistogram (map label trainingOriginal).

Definition class1Multiplier (trainingOriginal : FeatureCollection)
    (targetSizes : list Q) : result Q :=
  do class1Target <- get targetSizes 0;
  do size <- getNumber (classSizesDict trainingOriginal) 1;
  Ok (divide class1Target size).

Definition class2Multiplier (trainingOriginal : FeatureCollection)
    (targetSizes : list Q) : result Q :=
  do class2Target <- get targetSizes 1;
  do size <- getNumber (classSizesDict trainingOriginal) 2;
  Ok (divide class2Target size).

Definition class3Multiplier (trainingOriginal : FeatureCollection)
    (targetSizes : list Q) : result Q :=
  do class3Target <- get targetSizes 2;
  do size <- getNumber (classSizesDict trainingOriginal) 3;
  Ok (divide class3Target size).

Definition balancedTrainingSet (scope : Scope) (trainingOriginal : FeatureCollection)
    (targetSizes : list Q) : result (result FeatureCollection) :=
  let class1Multiplier := class1Multiplier trainingOriginal targetSizes in
  let class2Multiplier := class2Multiplier trainingOriginal targetSizes in
  let class3Multiplier := class3Multiplier trainingOriginal targetSizes in
  do oversampledClass1 <- call scope "oversampleClass" trainingOriginal 1 class1Multiplier;
  do oversampledClass2 <- call scope "oversampleClass" trainingOriginal 2 class2Multiplier;
  do oversampledClass3 <- call scope "oversampledClass" trainingOriginal 3 class3Multiplier;
  Ok (do o1 <- oversampledClass1;
      do o2 <- oversampledClass2;
      do o3 <- oversampledClass3;
      Ok (merge (merge (merge (labelled 0 trainingOriginal) o1) o2) o3)).

(** 5.3 - 5.5  The classifier, the classification of the test split (as
    the pairs of label and classification) and the record compiled from
    its confusion matrix: reached only once the balanced training set
    exists. *)
Definition evaluateParams (scope : Scope) (combination : Combination) (iteration : Z)
  : result (result EvaluationRecord) :=
  do balancedTrainingSet <-
     balancedTrainingSet scope (trainingOriginal iteration) (targetSizes combination);
  (* 5.3 *)
  let numFeatures := inject_Z (Z.of_nat (List.length optimalFeatures)) in
  let splitVarFactor := splitVar (rfParams combination) in
  let splitVars := EE.int (EE.sqrt (numFeatures * splitVarFactor)) in
  Ok (do balancedTrainingSet <- balancedTrainingSet;
      let trainedClassifier :=
        smileRandomForest (trees (rfParams combination))
                          (leafPop (rfParams combination))
                          splitVars
                          (bagFrac (rfParams combination))
                          balancedTrainingSet in
      (* 5.4 *)
      let testClassification :=
        map (fun f => (label f, trainedClassifier f)) (testingSet iteration) in
      let confusionMatrix := errorMatrix testClassification in
      (* 5.5 *)
      do class1Target <- get (targetSizes combination) 0;
      do class2Target <- get (targetSizes combination) 1;
      do class3Target <- get (targetSizes combination) 2;
      do recall_0 <- get (toList (producersAccuracy confusionMatrix)) 0;
      do recall_1 <- get (toList (producersAccuracy confusionMatrix)) 1;
      do recall_2 <- get (toList (producersAccuracy confusionMatrix)) 2;
      do recall_3 <- get (toList (producersAccuracy confusionMatrix)) 3;
      Ok (mkRecord ECO_ZONE_ID iteration class1Target class2Target class3Target
                   (trees (rfParams combination))
                   (leafPop (rfParams combination))
                   (bagFrac (rfParams combination))
                   splitVars
                   (matrix_accuracy confusionMatrix)
                   (matrix_kappa confusionMatrix)
                   recall_0 recall_1 recall_2 recall_3)).

(** ** Grid search: one call of [evaluateParams] per index of
    [allCombinations] *)
Definition sequence : list nat := seq 0 (List.length allCombinations).

Definition results (scope : Scope) : result (result (list EvaluationRecord)) :=
  do records <-
     mapM (fun iteration =>
             match nth_error allCombinations iteration with
             | Some combination =>
                 evaluateParams scope combination (Z.of_nat iteration)
             | None => Ok (Raise (ServerError "List.get: index out of range"))
             end)
          sequence;
  Ok (mapM (fun r => r) records).

End Script.

End Training.

(* ================================================================== *)
(** * Annual FCL mapping script: remaining trajectory statistics,
      masking and band selection                                       *)
(* ================================================================== *)

Module MappingFeatures.

Import Mapping.
Open Scope string_scope.

(** ** Naming convention for derived temporal features *)

Definition ROL_3Y_NAMES : list string := map (fun b => b ++ "_rol_3y") INDEX_BANDS.
Definition ROL_5Y_NAMES : list string := map (fun b => b ++ "_rol_5y") INDEX_BANDS.
Definition VOLA_5Y_NAMES : list string := map (fun b => b ++ "_vola_5y") INDEX_BANDS.
Definition AN_CHA_NAMES : list string := map (fun b => b ++ "_an_cha") INDEX_BANDS.
Definition CHG_AC_NAMES : list string := map (fun b => b ++ "_chg_ac") INDEX_BANDS.
Definition MEAN_NAMES : list string := map (fun b => b ++ "_mean") INDEX_BANDS.

(** ** Reducing a collection to an image *)

(** the unmasked values the images hold in band [n] at a pixel *)
Definition stack (images : list Image) (n : string) (x y : Z) : list Q :=
  flat_map (fun img => match sample img n x y with
                       | Some v => [v]
                       | None => []
                       end) images.

(** [collection.reduce(reducer)]: band by band (the bands of the first
    image, matched by name), pixel by pixel, over the unmasked values; a
    pixel with no value in any image is masked, and an empty collection
    gives an image without bands. *)
Definition reduceCollection (reduce : list Q -> Pixel) (name : string -> string)
    (c : ImageCollection) : Image :=
  match c with
  | [] => []
  | (_, first) :: _ =>
      map (fun nb =>
             (name (fst nb), fun x y => reduce (stack (map snd c) (fst nb) x y)))
          first
  end.

Definition minimum (vs : list Q) : Pixel :=
  match vs with
  | [] => None
  | v :: rest => Some (fold_left Qmin rest v)
  end.

(** [collection.mean()], [collection.min()] keep the band names;
    [collection.reduce(ee.Reducer.stdDev())] appends [_stdDev]. *)
Definition collection_mean : ImageCollection -> Image :=
  reduceCollection (reduceValues Reducer_mean) (fun b => b).
Definition collection_min : ImageCollection -> Image :=
  reduceCollection minimum (fun b => b).
Definition collection_stdDev : ImageCollection -> Image :=
  reduceCollection (reduceValues Reducer_stdDev) (fun b => b ++ "_stdDev").

(** ** [calculateAnnualFeatures]: rolling statistics and change metrics *)

Definition histCollection_5y (tsCollection : ImageCollection) (targetYear : Z)
  : ImageCollection :=
  sort_by_year
    (filter (fun yi => (targetYear - 5 <=? fst yi) && (fst yi <=? targetYear - 1))%Z
            tsCollection).

Definition rol_3y (tsCollection : ImageCollection) (targetYear : Z) : result Image :=
  do s <- select INDEX_BANDS (collection_mean (histCollection_3y tsCollection targetYear));
  rename ROL_3Y_NAMES s.

Definition rol_5y (tsCollection : ImageCollection) (targetYear : Z) : result Image :=
  do s <- select INDEX_BANDS (collection_min (histCollection_5y tsCollection targetYear));
  rename ROL_5Y_NAMES s.

Definition vola_5y (tsCollection : ImageCollection) (targetYear : Z) : result Image :=
  rename VOLA_5Y_NAMES (collection_stdDev (histCollection_5y tsCollection targetYear)).

Definition an_cha (imgTarget imgPrev1 : Image) : result Image :=
  do d <- subtract imgTarget imgPrev1;
  do s <- select INDEX_BANDS (EE.abs d);
  rename AN_CHA_NAMES s.

Definition histMean (tsCollection : ImageCollection) (targetYear : Z) : result Image :=
  do s <- select INDEX_BANDS (collection_mean (histCollection tsCollection targetYear));
  rename MEAN_NAMES s.

(** ** Forest mask and classification *)

(** [lc.expression('band >= 50 && band <= 92', {'band': lc})] *)
Definition forestMask (lc : Band) : Image :=
  [("b1", fun x y => match lc x y with
                     | Some v => Some (of_bool (Qle_bool 50 v && Qle_bool v 92))
                     | None => None
                     end)].

Definition mask_px (p m : Pixel) : Pixel :=
  match p, m with
  | Some v, Some k => if Qeq_bool k 0 then None else Some v
  | _, _ => None
  end.

Fixpoint mask_pairwise (img mask : Image) : Image :=
  match img, mask with
  | (n, b) :: img', (_, m) :: mask' =>
      (n, fun x y => mask_px (b x y) (m x y)) :: mask_pairwise img' mask'
  | _, _ => []
  end.

(** [image.updateMask(mask)]: a pixel keeps its value where the mask is
    not zero; a one-band mask applies to every band. *)
Definition updateMask (img mask : Image) : result Image :=
  match mask with
  | [(_, m)] => Ok (map (fun nb => (fst nb, fun x y => mask_px (snd nb x y) (m x y))) img)
  | _ =>
      if Nat.eqb (List.length img) (List.length mask)
      then Ok (mask_pairwise img mask)
      else Raise (ServerError "Image.updateMask: band count mismatch")
  end.

(** [selectedFeatures.classify(model, 'prediction').updateMask(forestMask)],
    for the raster [prediction] the stored classifier gives. *)
Definition classified (prediction : Band) (lc : Band) : result Image :=
  updateMask [("prediction", prediction)] (forestMask lc).

(** ** Band names of the feature image

    The names the bands of each feature image carry: what [rename],
    [select] and [addBands] fix, whatever the pixels hold. *)

(** the names [addBands] gives: a name that is taken gets a numerical
    suffix *)
Definition addBand_name (taken : list string) (n : string) : list string :=
  if existsb (String.eqb n) taken
  then (taken ++ [numbered (List.length taken) 1 n taken])%list
  else (taken ++ [n])%list.

Definition addBands_names (dst src : list string) : list string :=
  fold_left addBand_name src dst.

(** [calculateTrend(histCollection, 'trend')] *)
Definition TREND_NAMES : list string := map (fun b => b ++ "_" ++ "trend") INDEX_BANDS.

(** the [result] image of [calculateAnnualFeatures] *)
Definition annualFeatures_bandNames : list string :=
  addBands_names (addBands_names (addBands_names (addBands_names (addBands_names
    (addBands_names (addBands_names (addBands_names INDEX_BANDS
      CHG_RA_NAMES) ROL_3Y_NAMES) ROL_5Y_NAMES) TREND_NAMES) AN_CHA_NAMES)
      VOLA_5Y_NAMES) RECO_S_NAMES) MEAN_NAMES.

(** [addFirstOrderTexture(imgTarget)], [addGLCMTexture(imgTarget)]: the
    composite's bands followed by the texture bands *)
Definition textureFeatures1_bandNames : list string :=
  addBands_names SR_BANDS
    (flat_map (fun b => [b ++ "_mean"; b ++ "_stdDev"]) SR_BANDS).

Definition textureFeatures2_bandNames : list string :=
  addBands_names SR_BANDS
    (flat_map (fun b => [b ++ "_con"; b ++ "_ent"; b ++ "_cor"]) SR_BANDS).

(** [ee.Image.cat([annualPrecip, prevPrecip, tempAnomaly, summerTemp])] *)
Definition climateData_bandNames : list string :=
  ["a_precip"; "p_precip"; "temp_an"; "su_temp"].

Definition terrainFeatures_bandNames : list string := ["dem"; "slope"; "aspect"].

Definition fullFeatureImage_bandNames : list string :=
  addBands_names (addBands_names (addBands_names (addBands_names
    annualFeatures_bandNames
    textureFeatures1_bandNames) textureFeatures2_bandNames)
    climateData_bandNames) terrainFeatures_bandNames.

(** ** Optimal feature subsets ("Result of RFE") *)

Definition optimalFeatures1 : list string :=
  [ "a_precip"; "p_precip"; "su_temp"; "temp_an"; "NDBI"; "NDMI"; "NDVI";
    "NBR"; "EVI"; "RVI"; "DVI"; "B5_mean"; "SAVI"; "B3_stdDev"; "B3_mean";
    "B4_mean"; "B1_stdDev"; "B7_stdDev"; "B1_mean"; "B7_con"; "B7_cor";
    "B7_ent"; "B7_mean"; "NDBI_r_m_3"; "NDBI_r_sl"; "NDMI_r_m_5"; "NDVI_mean";
    "NDVI_c_ac"; "NDVI_r_m_3"; "NDVI_r_m_5"; "NDVI_v_5"; "NDVI_r_sl";
    "NBR_c_ac"; "NBR_r_m_5"; "EVI_mean"; "EVI_trend"; "EVI_c_ac"; "EVI_r_m_3";
    "EVI_r_sl"; "RVI_c_ac"; "RVI_r_m_3"; "RVI_r_m_5"; "RVI_r_sl"; "DVI_mean";
    "DVI_c_ac"; "DVI_r_m_3"; "DVI_r_m_5"; "SAVI_mean"; "SAVI_trend";
    "SAVI_c_ac"; "SAVI_r_m_3"; "SAVI_r_m_5" ].

Definition optimalFeatures2 : list string :=
  [ "p_precip"; "su_temp"; "temp_an"; "NDBI"; "NDMI"; "NDVI"; "NBR"; "EVI";
    "RVI"; "DVI"; "B5_mean"; "SAVI"; "B3_stdDev"; "B3_mean"; "B4_mean";
    "B1_mean"; "B7_con"; "B7_cor"; "B7_ent"; "B7_mean"; "NDBI_r_m_3";
    "NDBI_r_sl"; "NDVI_c_ac"; "NDVI_r_m_3"; "NDVI_v_5"; "NDVI_r_sl";
    "NBR_c_ac"; "NBR_r_m_5"; "EVI_v_5"; "RVI_v_5"; "SAVI_trend" ].

Definition optimalFeatures3 : list string :=
  [ "su_temp"; "NDBI"; "NDMI"; "NDVI"; "NBR"; "EVI"; "RVI"; "DVI"; "B5_mean";
    "SAVI"; "B3_stdDev"; "B3_mean"; "B1_stdDev"; "B7_stdDev"; "B1_mean";
    "B7_con"; "B7_cor"; "B7_ent"; "B7_mean"; "NDBI_r_m_3"; "NDMI_r_m_5";
    "NDVI_mean"; "NDVI_r_m_3"; "NDVI_r_m_5"; "EVI_r_m_3"; "EVI_r_m_5";
    "EVI_r_sl"; "RVI_r_m_3"; "RVI_r_m_5"; "SAVI_mean"; "SAVI_r_m_5";
    "SAVI_v_5" ].

Definition optimalFeatures4 : list string :=
  [ "a_precip"; "temp_an"; "NDBI"; "NDMI"; "NDVI"; "NBR"; "EVI"; "RVI"; "DVI";
    "B5_mean"; "SAVI"; "B3_stdDev"; "B3_mean"; "B4_mean"; "B1_stdDev";
    "B7_stdDev"; "B7_con"; "B7_cor"; "B7_mean"; "NDBI_r_m_3"; "NDVI_mean";
    "NDVI_r_m_5"; "EVI_mean"; "EVI_r_m_3"; "EVI_r_m_5"; "RVI_r_m_3";
    "RVI_v_5"; "DVI_v_5"; "SAVI_mean" ].

Definition optimalFeatures5 : list string :=
  [ "NDBI"; "NDMI"; "NDVI"; "NBR"; "RVI"; "SAVI"; "B3_stdDev"; "B3_mean";
    "B7_mean"; "NDBI_mean"; "NDBI_r_m_3"; "NDMI_mean"; "NDMI_r_m_3";
    "NDMI_r_m_5"; "NDVI_mean"; "NDVI_r_m_3"; "NBR_mean"; "NBR_r_m_5";
    "SAVI_mean"; "SAVI_r_m_3" ].

Definition optimalFeatures6 : list string :=
  [ "p_precip"; "su_temp"; "NDBI"; "NDMI"; "NDVI"; "NBR"; "EVI"; "RVI"; "DVI";
    "B5_mean"; "SAVI"; "B3_stdDev"; "B3_mean"; "B4_mean"; "B1_stdDev";
    "B1_mean"; "B7_con"; "B7_ent"; "B7_mean"; "NDBI_r_m_3"; "NDBI_r_sl";
    "NDMI_r_m_5"; "NDVI_mean"; "NDVI_r_m_3"; "NDVI_r_m_5"; "NBR_r_m_5";
    "EVI_r_m_3"; "EVI_r_m_5"; "EVI_v_5"; "RVI_r_m_5"; "RVI_v_5"; "DVI_r_m_5";
    "DVI_r_sl"; "SAVI_mean"; "SAVI_trend"; "SAVI_r_m_5" ].

Definition optimalFeatures7 : list string :=
  [ "a_precip"; "p_precip"; "su_temp"; "temp_an"; "NDBI"; "NDMI"; "NDVI";
    "NBR"; "EVI"; "RVI"; "DVI"; "B5_mean"; "SAVI"; "B3_mean"; "B4_mean";
    "B1_stdDev"; "B7_stdDev"; "B1_mean"; "B7_con"; "B7_cor"; "B7_ent";
    "B7_mean"; "NDBI_r_m_3"; "NDMI_r_m_5"; "NDVI_mean"; "NDVI_c_ac";
    "NDVI_r_m_3"; "NDVI_r_m_5"; "NDVI_v_5"; "NDVI_r_sl"; "NBR_c_ac";
    "NBR_r_m_5"; "EVI_mean"; "EVI_trend"; "EVI_r_m_3"; "EVI_r_m_5"; "EVI_v_5";
    "EVI_r_sl"; "RVI_c_ac"; "RVI_r_m_3"; "RVI_r_m_5"; "RVI_v_5"; "RVI_r_sl";
    "DVI_c_ac"; "DVI_r_m_3"; "DVI_v_5"; "SAVI_mean"; "SAVI_trend";
    "SAVI_c_ac"; "SAVI_r_m_3"; "SAVI_r_m_5"; "SAVI_v_5"; "SAVI_r_sl" ].

Definition optimalFeatures8 : list string :=
  [ "p_precip"; "su_temp"; "temp_an"; "NDBI"; "NDMI"; "NDVI"; "NBR"; "EVI";
    "RVI"; "DVI"; "B5_mean"; "SAVI"; "B3_stdDev"; "B3_mean"; "B4_mean";
    "B7_stdDev"; "B1_mean"; "B7_mean"; "NDBI_r_m_3"; "NDBI_r_sl"; "NDVI_mean";
    "NDVI_c_ac"; "NDVI_r_m_5"; "NDVI_v_5"; "NBR_r_m_5"; "EVI_r_m_3";
    "EVI_r_m_5"; "EVI_v_5"; "RVI_r_m_3"; "RVI_r_m_5"; "RVI_v_5"; "DVI_mean";
    "DVI_c_ac"; "DVI_r_m_3"; "DVI_r_m_5"; "DVI_v_5"; "DVI_r_sl"; "SAVI_mean";
    "SAVI_r_m_3"; "SAVI_r_m_5"; "SAVI_v_5" ].

Definition optimalFeatures9 : list string :=
  [ "a_precip"; "p_precip"; "NDBI"; "NDMI"; "NDVI"; "NBR"; "EVI"; "RVI";
    "DVI"; "B5_mean"; "SAVI"; "B3_stdDev"; "B3_mean"; "B1_stdDev";
    "B7_stdDev"; "B1_mean"; "B7_con"; "B7_ent"; "B7_mean"; "NDBI_r_m_3";
    "NDBI_r_sl"; "NDMI_r_m_5"; "NDVI_mean"; "NDVI_r_m_5"; "NDVI_v_5";
    "NDVI_r_sl"; "NBR_r_m_5"; "EVI_mean"; "EVI_r_m_5"; "RVI_r_m_3";
    "RVI_r_m_5"; "RVI_r_sl"; "SAVI_mean"; "SAVI_v_5"; "SAVI_r_sl" ].

Definition optimalFeatures10 : list string :=
  [ "NDBI"; "NDMI"; "NDVI"; "NBR"; "EVI"; "RVI"; "DVI"; "SAVI"; "B3_stdDev";
    "B3_mean"; "B1_stdDev"; "B7_stdDev"; "B1_mean"; "B7_mean"; "NDVI_mean";
    "NDVI_r_m_3"; "NDVI_r_m_5"; "NDVI_v_5"; "RVI_r_m_5"; "SAVI_mean";
    "SAVI_r_m_3"; "SAVI_v_5" ].

Definition optimalFeatures11 : list string :=
  [ "p_precip"; "su_temp"; "NDBI"; "NDMI"; "NDVI"; "NBR"; "EVI"; "RVI";
    "B5_mean"; "SAVI"; "B3_stdDev"; "B3_mean"; "B1_stdDev"; "B7_stdDev";
    "B1_mean"; "B7_con"; "B7_cor"; "B7_ent"; "B7_mean"; "NDBI_r_m_3";
    "NDBI_r_sl"; "NDMI_r_m_5"; "NDVI_mean"; "NDVI_r_m_5"; "NDVI_v_5";
    "NBR_r_m_5"; "EVI_r_m_5"; "EVI_v_5"; "RVI_r_m_5"; "RVI_v_5"; "SAVI_mean";
    "SAVI_r_m_5"; "SAVI_v_5" ].

Definition optimalFeatures12 : list string :=
  [ "a_precip"; "p_precip"; "su_temp"; "temp_an"; "NDBI"; "NDMI"; "NDVI";
    "NBR"; "EVI"; "RVI"; "DVI"; "B5_mean"; "SAVI"; "B3_stdDev"; "B3_mean";
    "B4_mean"; "B1_stdDev"; "B1_mean"; "B7_con"; "B7_cor"; "B7_ent";
    "B7_mean"; "NDBI_r_m_3"; "NDBI_r_sl"; "NDMI_r_m_5"; "NDVI_mean";
    "NDVI_r_m_3"; "NDVI_r_m_5"; "NDVI_v_5"; "NBR_r_m_5"; "EVI_mean";
    "EVI_r_m_5"; "EVI_v_5"; "RVI_r_m_3"; "RVI_r_m_5"; "RVI_v_5"; "DVI_r_m_5";
    "DVI_v_5"; "SAVI_mean"; "SAVI_r_m_5"; "SAVI_v_5" ].

Definition optimalFeatures13 : list string :=
  [ "a_precip"; "p_precip"; "su_temp"; "temp_an"; "NDBI"; "NDMI"; "NDVI";
    "NBR"; "EVI"; "RVI"; "DVI"; "B5_mean"; "SAVI"; "B3_stdDev"; "B3_mean";
    "B1_stdDev"; "B7_stdDev"; "B1_mean"; "B7_con"; "B7_ent"; "B7_mean";
    "NDBI_r_m_3"; "NDBI_r_sl"; "NDMI_r_m_5"; "NDVI_r_m_5"; "NBR_r_m_5";
    "EVI_r_m_3"; "EVI_v_5"; "DVI_v_5"; "SAVI_trend"; "SAVI_r_m_3";
    "SAVI_r_m_5" ].

Definition optimalFeatures14 : list string :=
  [ "a_precip"; "p_precip"; "su_temp"; "NDBI"; "NDMI"; "NDVI"; "NBR"; "EVI";
    "RVI"; "DVI"; "B5_mean"; "SAVI"; "B3_stdDev"; "B3_mean"; "B4_mean";
    "B1_stdDev"; "B7_stdDev"; "B1_mean"; "B7_con"; "B7_ent"; "B7_mean";
    "NDBI_r_m_3"; "NDMI_r_m_5"; "NDVI_mean"; "NDVI_r_m_5"; "NDVI_v_5";
    "NBR_r_m_5"; "RVI_r_m_3"; "RVI_r_m_5"; "DVI_mean"; "DVI_r_m_3";
    "SAVI_mean"; "SAVI_r_m_3"; "SAVI_r_m_5" ].

Definition optimalFeatures15 : list string :=
  [ "p_precip"; "temp_an"; "NDBI"; "NDMI"; "NDVI"; "NBR"; "EVI"; "RVI"; "DVI";
    "B5_mean"; "SAVI"; "B3_stdDev"; "B3_mean"; "B4_mean"; "B1_stdDev";
    "B7_stdDev"; "B1_mean"; "B7_con"; "B7_mean"; "NDMI_r_m_5"; "NDVI_mean";
    "NDVI_r_m_3"; "NDVI_r_m_5"; "NDVI_v_5"; "NDVI_r_sl"; "NBR_r_m_5";
    "EVI_mean"; "EVI_r_m_5"; "EVI_v_5"; "EVI_r_sl"; "RVI_r_m_3"; "RVI_r_m_5";
    "RVI_v_5"; "DVI_r_m_5"; "SAVI_mean"; "SAVI_trend"; "SAVI_r_m_3";
    "SAVI_r_m_5"; "SAVI_v_5" ].

Definition optimalFeatures16 : list string :=
  [ "a_precip"; "su_temp"; "temp_an"; "NDBI"; "NDMI"; "NDVI"; "NBR"; "EVI";
    "RVI"; "DVI"; "B5_mean"; "SAVI"; "B3_stdDev"; "B3_mean"; "B1_stdDev";
    "B1_mean"; "B7_con"; "B7_mean"; "NDBI_r_m_3"; "NDBI_r_sl"; "NDVI_mean";
    "NDVI_r_m_3"; "NDVI_r_m_5"; "NDVI_v_5"; "NDVI_r_sl"; "NBR_r_m_5";
    "EVI_r_m_5"; "RVI_r_m_5"; "RVI_v_5"; "DVI_mean"; "DVI_r_m_3"; "DVI_r_m_5";
    "DVI_v_5"; "SAVI_mean"; "SAVI_r_m_3"; "SAVI_r_m_5"; "SAVI_v_5";
    "SAVI_r_sl" ].

Definition optimalFeatures17 : list string :=
  [ "su_temp"; "NDBI"; "NDMI"; "NDVI"; "NBR"; "EVI"; "RVI"; "DVI"; "B5_mean";
    "SAVI"; "B3_stdDev"; "B3_mean"; "B1_stdDev"; "B7_stdDev"; "B1_mean";
    "B7_con"; "B7_ent"; "B7_mean"; "NDMI_r_m_5"; "NDVI_mean"; "NDVI_r_m_3";
    "NDVI_r_m_5"; "NDVI_v_5"; "NDVI_r_sl"; "NBR_r_m_5"; "EVI_v_5";
    "RVI_r_m_3"; "RVI_r_m_5"; "RVI_v_5"; "DVI_r_m_3"; "SAVI_mean";
    "SAVI_r_m_5"; "SAVI_v_5" ].

Definition optimalFeatures18 : list string :=
  [ "a_precip"; "su_temp"; "temp_an"; "NDBI"; "NDMI"; "NDVI"; "NBR"; "EVI";
    "RVI"; "DVI"; "B5_mean"; "SAVI"; "B3_stdDev"; "B3_mean"; "B4_mean";
    "B7_stdDev"; "B1_mean"; "B7_con"; "B7_mean"; "NDBI_r_m_3"; "NDVI_mean";
    "NDVI_r_m_3"; "NDVI_r_m_5"; "NBR_r_m_5"; "RVI_r_m_5"; "DVI_mean";
    "DVI_c_ac"; "DVI_r_m_3"; "DVI_r_m_5"; "SAVI_mean"; "SAVI_trend";
    "SAVI_r_m_3"; "SAVI_r_m_5" ].

Definition optimalFeatures19 : list string :=
  [ "p_precip"; "su_temp"; "NDBI"; "NDMI"; "NDVI"; "NBR"; "EVI"; "RVI"; "DVI";
    "B5_mean"; "SAVI"; "B3_stdDev"; "B3_mean"; "B1_stdDev"; "B7_stdDev";
    "B1_mean"; "B7_con"; "B7_mean"; "NDBI_r_sl"; "NDVI_mean"; "NDVI_r_m_3";
    "NDVI_r_m_5"; "NDVI_v_5"; "NDVI_r_sl"; "NBR_r_m_5"; "EVI_r_m_3";
    "EVI_r_m_5"; "EVI_v_5"; "RVI_r_m_3"; "RVI_r_m_5"; "DVI_mean"; "SAVI_mean";
    "SAVI_r_m_3"; "SAVI_r_m_5" ].

Definition optimalFeatures20 : list string :=
  [ "p_precip"; "su_temp"; "NDBI"; "NDMI"; "NDVI"; "NBR"; "EVI"; "RVI"; "DVI";
    "B5_mean"; "SAVI"; "B3_stdDev"; "B3_mean"; "B1_stdDev"; "B7_stdDev";
    "B7_con"; "B7_mean"; "NDBI_r_sl"; "NDVI_mean"; "NDVI_r_m_3"; "NDVI_r_m_5";
    "NDVI_v_5"; "NBR_r_m_5"; "EVI_r_m_3"; "EVI_r_m_5"; "EVI_r_sl";
    "RVI_r_m_3"; "RVI_r_m_5"; "DVI_v_5"; "SAVI_mean"; "SAVI_r_m_5"; "SAVI_v_5" ].

Definition optimalFeatures21 : list string :=
  [ "a_precip"; "su_temp"; "temp_an"; "NDBI"; "NDMI"; "NDVI"; "NBR"; "EVI";
    "RVI"; "DVI"; "B5_mean"; "SAVI"; "B3_stdDev"; "B3_mean"; "B4_mean";
    "B1_stdDev"; "B7_stdDev"; "B1_mean"; "B7_con"; "B7_ent"; "B7_mean";
    "NDVI_mean"; "NDVI_r_m_3"; "NDVI_r_m_5"; "NDVI_v_5"; "NBR_r_m_5";
    "EVI_r_m_3"; "EVI_r_m_5"; "EVI_v_5"; "RVI_r_m_3"; "RVI_r_m_5"; "DVI_v_5";
    "DVI_r_sl"; "SAVI_mean"; "SAVI_r_m_3"; "SAVI_r_m_5"; "SAVI_v_5" ].

Definition optimalFeatures22 : list string :=
  [ "a_precip"; "p_precip"; "su_temp"; "NDBI"; "NDMI"; "NDVI"; "NBR"; "EVI";
    "RVI"; "DVI"; "B5_mean"; "SAVI"; "B3_mean"; "B4_mean"; "B7_stdDev";
    "B1_mean"; "B7_con"; "B7_ent"; "B7_mean"; "NDBI_r_m_3"; "NDBI_r_sl";
    "NDMI_r_m_5"; "NDVI_mean"; "NDVI_r_m_3"; "NDVI_r_m_5"; "NDVI_v_5";
    "NBR_r_m_5"; "EVI_mean"; "EVI_trend"; "EVI_r_m_3"; "EVI_r_m_5";
    "EVI_r_sl"; "RVI_r_m_3"; "RVI_r_m_5"; "DVI_mean"; "DVI_r_m_3";
    "DVI_r_m_5"; "SAVI_mean"; "SAVI_r_m_3"; "SAVI_r_m_5" ].

Definition optimalFeatures23 : list string :=
  [ "a_precip"; "su_temp"; "NDBI"; "NDMI"; "NDVI"; "NBR"; "EVI"; "RVI"; "DVI";
    "B5_mean"; "SAVI"; "B3_stdDev"; "B3_mean"; "B7_stdDev"; "B1_mean";
    "B7_con"; "B7_cor"; "B7_ent"; "B7_mean"; "NDBI_r_m_3"; "NDVI_mean";
    "NDVI_r_m_3"; "NDVI_r_m_5"; "NDVI_v_5"; "NDVI_r_sl"; "NBR_c_ac";
    "NBR_r_m_5"; "EVI_mean"; "EVI_c_ac"; "RVI_v_5"; "DVI_mean"; "SAVI_mean";
    "SAVI_trend"; "SAVI_r_m_3"; "SAVI_r_m_5" ].

Definition optimalFeatures24 : list string :=
  [ "a_precip"; "p_precip"; "su_temp"; "NDBI"; "NDMI"; "NDVI"; "NBR"; "EVI";
    "RVI"; "DVI"; "B5_mean"; "SAVI"; "B3_stdDev"; "B3_mean"; "B1_stdDev";
    "B7_stdDev"; "B1_mean"; "B7_con"; "B7_mean"; "NDBI_r_m_3"; "NDMI_r_m_5";
    "NDVI_mean"; "NDVI_r_m_3"; "NDVI_r_m_5"; "NDVI_v_5"; "NDVI_r_sl";
    "NBR_r_m_5"; "EVI_r_m_3"; "EVI_r_m_5"; "EVI_r_sl"; "RVI_r_m_3";
    "RVI_r_m_5"; "RVI_v_5"; "DVI_r_m_3"; "SAVI_mean"; "SAVI_r_m_3";
    "SAVI_r_m_5"; "SAVI_r_sl" ].

Definition optimalFeatures25 : list string :=
  [ "a_precip"; "NDBI"; "NDMI"; "NDVI"; "NBR"; "EVI"; "RVI"; "DVI"; "B5_mean";
    "SAVI"; "B3_stdDev"; "B3_mean"; "B4_mean"; "B7_stdDev"; "B1_mean";
    "B7_con"; "B7_mean"; "NDBI_r_m_3"; "NDBI_r_sl"; "NDMI_r_m_5"; "NDVI_mean";
    "NDVI_r_m_5"; "NDVI_v_5"; "EVI_mean"; "EVI_c_ac"; "EVI_r_m_3"; "EVI_v_5";
    "EVI_r_sl"; "RVI_r_m_5"; "RVI_v_5"; "DVI_r_m_5"; "SAVI_mean";
    "SAVI_trend"; "SAVI_r_m_5"; "SAVI_v_5" ].

Definition optimalFeatures26 : list string :=
  [ "a_precip"; "NDBI"; "NDMI"; "NDVI"; "NBR"; "EVI"; "RVI"; "DVI"; "B5_mean";
    "SAVI"; "B3_stdDev"; "B3_mean"; "B4_mean"; "B7_stdDev"; "B1_mean";
    "B7_con"; "B7_ent"; "B7_mean"; "NDBI_r_sl"; "NDMI_r_m_5"; "NDVI_mean";
    "NDVI_r_m_3"; "NDVI_r_m_5"; "NDVI_v_5"; "NBR_r_m_5"; "RVI_r_m_3";
    "RVI_r_m_5"; "RVI_v_5"; "DVI_mean"; "DVI_r_m_3"; "DVI_r_m_5"; "SAVI_mean";
    "SAVI_c_ac"; "SAVI_r_m_3"; "SAVI_r_m_5"; "SAVI_v_5"; "SAVI_r_sl" ].

Definition optimalFeatures27 : list string :=
  [ "p_precip"; "su_temp"; "temp_an"; "NDBI"; "NDMI"; "NDVI"; "NBR"; "EVI";
    "RVI"; "DVI"; "B5_mean"; "SAVI"; "B3_stdDev"; "B3_mean"; "B4_mean";
    "B1_stdDev"; "B7_stdDev"; "B1_mean"; "B7_con"; "B7_cor"; "B7_ent";
    "B7_mean"; "NDBI_r_m_3"; "NDMI_r_m_5"; "NDVI_mean"; "NDVI_v_5";
    "NDVI_r_sl"; "NBR_r_m_5"; "EVI_c_ac"; "EVI_r_m_5"; "RVI_r_m_5";
    "DVI_r_m_5"; "DVI_v_5"; "SAVI_mean"; "SAVI_trend" ].

Definition optimalFeatures28 : list string :=
  [ "a_precip"; "p_precip"; "temp_an"; "NDBI"; "NDMI"; "NDVI"; "NBR"; "EVI";
    "RVI"; "DVI"; "B5_mean"; "SAVI"; "B3_stdDev"; "B3_mean"; "B7_stdDev";
    "B1_mean"; "B7_con"; "B7_cor"; "B7_mean"; "NDBI_r_m_3"; "NDVI_mean";
    "NDVI_c_ac"; "NDVI_r_m_3"; "NDVI_r_m_5"; "NDVI_v_5"; "NDVI_r_sl";
    "EVI_mean"; "EVI_c_ac"; "EVI_r_m_3"; "EVI_r_m_5"; "RVI_r_m_5"; "RVI_v_5";
    "DVI_mean"; "DVI_r_m_3"; "DVI_r_m_5"; "DVI_v_5"; "SAVI_mean";
    "SAVI_r_m_3"; "SAVI_r_m_5" ].

Definition optimalFeatures29 : list string :=
  [ "a_precip"; "su_temp"; "temp_an"; "NDBI"; "NDMI"; "NDVI"; "NBR"; "EVI";
    "RVI"; "DVI"; "B5_mean"; "SAVI"; "B3_stdDev"; "B3_mean"; "B7_stdDev";
    "B7_con"; "B7_ent"; "B7_mean"; "NDBI_r_m_3"; "NDMI_r_m_5"; "NDVI_r_m_3";
    "NDVI_r_m_5"; "NDVI_v_5"; "NBR_r_m_5"; "EVI_r_m_3"; "EVI_r_m_5";
    "EVI_v_5"; "RVI_r_m_5"; "DVI_r_m_5"; "SAVI_trend"; "SAVI_r_m_5" ].

Definition optimalFeatures30 : list string :=
  [ "p_precip"; "su_temp"; "temp_an"; "NDBI"; "NDMI"; "NDVI"; "NBR"; "EVI";
    "RVI"; "DVI"; "B5_mean"; "SAVI"; "B3_stdDev"; "B3_mean"; "B1_stdDev";
    "B7_stdDev"; "B7_con"; "B7_ent"; "B7_mean"; "NDBI_r_m_3"; "NDMI_r_m_5";
    "NDVI_mean"; "NDVI_r_sl"; "NBR_r_m_5"; "EVI_mean"; "EVI_r_m_3";
    "EVI_r_m_5"; "EVI_v_5"; "EVI_r_sl"; "DVI_r_m_3"; "SAVI_mean" ].

Definition optimalFeatures31 : list string :=
  [ "a_precip"; "p_precip"; "su_temp"; "temp_an"; "NDBI"; "NDMI"; "NDVI";
    "NBR"; "EVI"; "RVI"; "DVI"; "B5_mean"; "SAVI"; "B3_mean"; "B4_mean";
    "B7_stdDev"; "B1_mean"; "B7_con"; "B7_cor"; "B7_ent"; "B7_mean";
    "NDBI_r_sl"; "NDMI_r_m_5"; "NDVI_mean"; "NDVI_r_m_3"; "NBR_r_m_5";
    "EVI_trend"; "EVI_v_5"; "RVI_r_m_3"; "RVI_r_m_5"; "DVI_mean"; "DVI_r_m_3";
    "DVI_r_m_5"; "DVI_v_5"; "SAVI_mean"; "SAVI_trend"; "SAVI_r_m_3" ].

Definition optimalFeatures32 : list string :=
  [ "su_temp"; "NDBI"; "NDMI"; "NDVI"; "NBR"; "EVI"; "RVI"; "DVI"; "B5_mean";
    "SAVI"; "B3_stdDev"; "B3_mean"; "B1_mean"; "B7_mean"; "NDBI_r_m_3";
    "NDMI_r_m_5"; "NBR_r_m_5"; "DVI_r_m_3"; "DVI_r_m_5"; "DVI_v_5";
    "SAVI_trend" ].

Definition optimalFeatures33 : list string :=
  [ "a_precip"; "p_precip"; "su_temp"; "NDBI"; "NDMI"; "NDVI"; "NBR"; "EVI";
    "RVI"; "B5_mean"; "SAVI"; "B3_mean"; "B1_mean"; "B7_mean"; "NDVI_r_m_5";
    "NDVI_v_5" ].

Definition optimalFeatures34 : list string :=
  [ "a_precip"; "p_precip"; "su_temp"; "temp_an"; "NDBI"; "NDMI"; "NDVI";
    "NBR"; "EVI"; "RVI"; "DVI"; "B5_mean"; "SAVI"; "B3_stdDev"; "B3_mean";
    "B4_mean"; "B1_stdDev"; "B7_stdDev"; "B1_mean"; "B7_con"; "B7_ent";
    "B7_mean"; "NDBI_r_m_3"; "NDVI_mean"; "NDVI_r_m_3"; "NDVI_r_m_5";
    "NDVI_v_5"; "NBR_r_m_5"; "EVI_trend"; "EVI_v_5"; "RVI_r_m_3"; "RVI_r_m_5";
    "RVI_v_5"; "DVI_mean"; "DVI_r_m_3"; "DVI_r_m_5"; "DVI_v_5"; "SAVI_mean";
    "SAVI_r_m_5" ].

Definition optimalFeatures35 : list string :=
  [ "p_precip"; "NDBI"; "NDMI"; "NDVI"; "NBR"; "EVI"; "RVI"; "DVI"; "B5_mean";
    "SAVI"; "B3_stdDev"; "B3_mean"; "B4_mean"; "B1_stdDev"; "B7_stdDev";
    "B1_mean"; "B7_con"; "B7_mean"; "NDBI_r_m_3"; "NDMI_r_m_5"; "NDVI_mean";
    "NDVI_c_ac"; "NDVI_r_m_3"; "NDVI_r_m_5"; "NDVI_v_5"; "NDVI_r_sl";
    "NBR_r_m_5"; "EVI_mean"; "RVI_r_m_5"; "DVI_r_sl"; "SAVI_mean";
    "SAVI_trend"; "SAVI_r_m_5" ].

Definition featsList : list (list string) :=
  [ optimalFeatures1; optimalFeatures2; optimalFeatures3; optimalFeatures4;
    optimalFeatures5; optimalFeatures6; optimalFeatures7; optimalFeatures8;
    optimalFeatures9; optimalFeatures10; optimalFeatures11; optimalFeatures12;
    optimalFeatures13; optimalFeatures14; optimalFeatures15;
    optimalFeatures16; optimalFeatures17; optimalFeatures18;
    optimalFeatures19; optimalFeatures20; optimalFeatures21;
    optimalFeatures22; optimalFeatures23; optimalFeatures24;
    optimalFeatures25; optimalFeatures26; optimalFeatures27;
    optimalFeatures28; optimalFeatures29; optimalFeatures30;
    optimalFeatures31; optimalFeatures32; optimalFeatures33;
    optimalFeatures34; optimalFeatures35 ].

(** [featsList[ECOREGION_ID - 1]]: "JS uses 0-based indexing"; an index
    outside the array gives [undefined]. *)
Definition optimalFeatures (ECOREGION_ID : Z) : option (list string) :=
  if (ECOREGION_ID <? 1)%Z
  then None
  else nth_error featsList (Z.to_nat (ECOREGION_ID - 1)).

(** [fullFeatureImage.select(optimalFeatures)] *)
Definition selectedFeatures (optimalFeatures : list string) (fullFeatureImage : Image)
  : result Image :=
  select optimalFeatures fullFeatureImage.

End MappingFeatures.

(* ================================================================== *)
(** * Properties of the mapping script                                 *)
(* ================================================================== *)

Module MappingProperties.

Import Mapping.
Open Scope string_scope.

(** a composite whose six reflectance bands are the given rasters *)
Definition composite (b1 b2 b3 b4 b5 b7 : Band) : Image :=
  [("B1", b1); ("B2", b2); ("B3", b3); ("B4", b4); ("B5", b5); ("B7", b7)].

Definition flat (v : Q) : Band := fun _ _ => Some v.

Lemma composite_of_names (img : Image) :
  bandNames img = SR_BANDS ->
  exists b1 b2 b3 b4 b5 b7, img = composite b1 b2 b3 b4 b5 b7.
Proof.
  unfold bandNames, SR_BANDS, composite. intros H.
  repeat (destruct img as [|[? ?] img]; simpl in H; try discriminate).
  injection H as -> -> -> -> -> ->. eauto 7.
Qed.

Lemma divide_zero_numerator (d : Q) (n : Q) : n == 0 -> divide n d == 0.
Proof.
  intros Hn. unfold divide. destruct (Qeq_bool d 0); [reflexivity|].
  rewrite Hn. unfold Qdiv. ring.
Qed.

(** ** Index Calculator *)

(** C8.  For a reflectance composite and a pixel whose NIR (B4) and RED (B3)
    values are equal, non-negative (a reflectance) and of non-zero sum, the
    Index Calculator succeeds and its NDVI band is 0 at that pixel. *)
Theorem ndvi_zero_when_nir_equals_red :
  forall (img : Image) (x y : Z) (v : Q),
    bandNames img = SR_BANDS ->
    sample img "B4" x y = Some v ->
    sample img "B3" x y = Some v ->
    0 <= v ->
    ~ v + v == 0 ->
    exists out w,
      addIndices img = Ok out /\ sample out "NDVI" x y = Some w /\ w == 0.
Proof.
  intros img x y v Hn.
  destruct (composite_of_names img Hn) as (b1 & b2 & b3 & b4 & b5 & b7 & ->).
  unfold sample. cbn. intros H4 H3 Hv _.
  eexists. eexists. split; [reflexivity|].
  unfold sample. cbn. unfold band1, nd_px. rewrite H4, H3.
  apply Qle_bool_iff in Hv. rewrite Hv. cbn.
  split; [reflexivity|].
  rewrite divide_zero_numerator; [reflexivity|ring].
Qed.

Lemma ndvi_zero_when_nir_equals_red_witness :
  exists out w,
    addIndices (composite (flat 420) (flat 610) (flat 3000) (flat 3000)
                          (flat 1800) (flat 900)) = Ok out
    /\ sample out "NDVI" 5 7 = Some w /\ w == 0.
Proof.
  apply (ndvi_zero_when_nir_equals_red _ 5%Z 7%Z 3000).
  - reflexivity.
  - reflexivity.
  - reflexivity.
  - discriminate.
  - discriminate.
Defined.

(** ** Temporal Trajectory Aggregator *)

(** an index image whose eight bands hold [v] at every pixel *)
Definition index_image (v : Q) : Image := map (fun n => (n, flat v)) INDEX_BANDS.

(** The relative annual change as the specification words it:
    [(I_T - I_{T-1}) / max(|I_{T-1}|, 1e-5)]. *)
Definition spec_chg_ra (t p : Q) : Q := (t - p) / Qmax (Qabs p) 0.00001.

Lemma index_image_of_names (img : Image) :
  bandNames img = INDEX_BANDS ->
  exists a b c d e f g h,
    img = [("NBR", a); ("NDVI", b); ("NDMI", c); ("NDBI", d);
           ("RVI", e); ("SAVI", f); ("EVI", g); ("DVI", h)].
Proof.
  unfold bandNames, INDEX_BANDS. intros H.
  repeat (destruct img as [|[? ?] img]; simpl in H; try discriminate).
  injection H as -> -> -> -> -> -> -> ->. eauto 9.
Qed.

(** [safeDivide] returns the constant image 0 whatever its arguments are:
    its condition is an image, and an image is a true condition. *)
Lemma safeDivide_is_constant_zero (num denom : Image) (c : Image) :
  image_eq denom (constant 0) = Ok c -> safeDivide num denom = Ok (constant 0).
Proof.
  intros H. unfold safeDivide. rewrite H. reflexivity.
Qed.

(** Hence every [*_chg_ra] band is 0 wherever both years are present. *)
Lemma chg_ra_target_is_zero (imgT imgP : Image) :
  bandNames imgT = INDEX_BANDS ->
  bandNames imgP = INDEX_BANDS ->
  exists out,
    chg_ra_target imgT imgP = Ok out
    /\ bandNames out = CHG_RA_NAMES
    /\ forall i b x y t p,
         nth_error INDEX_BANDS i = Some b ->
         sample imgT b x y = Some t ->
         sample imgP b x y = Some p ->
         sample out (b ++ "_chg_ra") x y = Some 0.
Proof.
  intros HT HP.
  destruct (index_image_of_names imgT HT) as (a1 & a2 & a3 & a4 & a5 & a6 & a7 & a8 & ->).
  destruct (index_image_of_names imgP HP) as (p1 & p2 & p3 & p4 & p5 & p6 & p7 & p8 & ->).
  eexists. split; [reflexivity|]. split; [reflexivity|].
  intros i b x y t p Hi.
  do 8 (destruct i as [|i]; [injection Hi as <-; unfold sample; cbn;
                             unfold band2, band1; cbn;
                             intros -> Hp; rewrite Hp; reflexivity|]).
  destruct i; discriminate.
Qed.

(** C1.  Target year 2000 after a prior year of 1000 on every index band:
    the script's [NBR_chg_ra] is 0, while the relative change
    [(2000 - 1000) / max(|1000|, 1e-5)] is 1. *)
Theorem chg_ra_is_not_the_relative_change :
  exists out,
    chg_ra_target (index_image 2000) (index_image 1000) = Ok out
    /\ sample out "NBR_chg_ra" 0 0 = Some 0
    /\ spec_chg_ra 2000 1000 == 1.
Proof.
  eexists. split; [reflexivity|].
  split; vm_compute; reflexivity.
Qed.

(** Were the conditional of [safeDivide] taken pixel by pixel, its
    denominator [|I_{T-1}| + 1e-5] is never 0, the quotient
    [|I_{T-1}| / (|I_{T-1}| + 1e-5)] is close to 1, and the band is close
    to the absolute change: still not the relative change. *)
Definition chg_ra_pixelwise (t p : Q) : Q :=
  let num := Qabs p in
  let denom := Qabs p + 0.00001 in
  divide (t - p) (if Qeq_bool denom 0 then 0 else divide num denom).

Remark chg_ra_pixelwise_2000_1000 : chg_ra_pixelwise 2000 1000 == 1000.00001.
Proof. vm_compute. reflexivity. Qed.

(** three years rising by exactly 1 per year on every index band *)
Definition rising_series : ImageCollection :=
  [(2000%Z, index_image 100); (2001%Z, index_image 101); (2002%Z, index_image 102)].

(** The regression of a collection has the year as its only independent
    variable, so it fits a line through the origin. *)
Lemma regression_through_origin :
  regression (histCollection rising_series 2003) 0 0
  = Ok (Some [repeat (606305 # 12012005) 8]).
Proof. vm_compute. reflexivity. Qed.

(** C3.  For the series 100, 101, 102 over 2000..2002 (slope 1) and target
    year 2003, neither [*_trend] nor [*_reco_s] is produced: projecting the
    1 by 8 coefficient array on axis 0 fails; and the coefficient the
    regression holds for each band is 606305/12012005, not 1. *)
Theorem trend_of_rising_series_is_not_its_slope :
  fullTrend rising_series 2003 0 0
  = Raise (ServerError "arrayProject: dropped axes must be at most length 1")
  /\ recoveryTrend rising_series 2003 0 0
     = Raise (ServerError "arrayProject: dropped axes must be at most length 1")
  /\ regression (histCollection_3y rising_series 2003) 0 0
     = Ok (Some [repeat (606305 # 12012005) 8])
  /\ Qeq_bool (606305 # 12012005) 1 = false.
Proof.
  repeat split; vm_compute; reflexivity.
Qed.

(** ** Texture Extractor *)

Lemma Kernel_square_3_size : List.length (Kernel_square 3) = 49%nat.
Proof. reflexivity. Qed.

Lemma Kernel_square_1_size : List.length (Kernel_square 1) = 9%nat.
Proof. reflexivity. Qed.

(** a raster that is 0 everywhere but 49 at pixel (2, 0) *)
Definition spike : Band :=
  fun x y => if ((x =? 2) && (y =? 0))%Z then Some 49 else Some 0.

(** C4.  On a composite whose B1 is 0 except for 49 at pixel (2, 0), the
    script's [B1_mean] at pixel (0, 0) is 49/49: the pixel two columns away
    is inside its window.  The mean over the 3 by 3 (radius 1) window there
    is 0.  Twelve bands are added. *)
Theorem first_order_texture_window_is_not_3x3 :
  exists out,
    addFirstOrderTexture
      (composite spike (flat 0) (flat 0) (flat 0) (flat 0) (flat 0)) = Ok out
    /\ List.length out = (6 + 12)%nat
    /\ sample out "B1_mean" 0 0 = Some (49 # 49)
    /\ sample (reduceNeighborhood Reducer_mean (Kernel_square 1) [("B1", spike)])
              "B1" 0 0 = Some (0 # 9).
Proof.
  eexists. split; [reflexivity|].
  repeat split; vm_compute; reflexivity.
Qed.

(** ** Predictor and Post-Processor *)

Section Smoothing.

Variable tie : Q -> Q -> bool.

Lemma fold_keeps_constant (vs all : list Q) (c : Q) :
  Forall (fun v => v = c) vs ->
  fold_left (fun best w => if better tie all w best then w else best) vs c = c.
Proof.
  induction 1 as [|v vs Hv _ IH]; simpl.
  - reflexivity.
  - subst v. destruct (better tie all c c); exact IH.
Qed.

Lemma mode_of_constant_list (vs : list Q) (c : Q) :
  vs <> [] -> Forall (fun v => v = c) vs -> mode tie vs = Some c.
Proof.
  destruct vs as [|v rest]; [congruence|].
  intros _ H. inversion H as [|? ? Hv Hrest]; subst.
  unfold mode. f_equal. apply fold_keeps_constant. exact Hrest.
Qed.

Lemma window_of_uniform_band (b : Band) (c : Q) (x y : Z) :
  (forall i j, b i j = Some c) ->
  window (Kernel_square 1) b x y = repeat c 9.
Proof.
  intros H. unfold window.
  let k := eval vm_compute in (Kernel_square 1) in
  change (Kernel_square 1) with k.
  unfold flat_map, fst, snd. rewrite !H. reflexivity.
Qed.

Lemma focal_mode_pass_uniform (img : Image) (c : Q) :
  (forall n b, In (n, b) img -> forall i j, b i j = Some c) ->
  forall n x y, sample (focal_mode_pass tie 1 img) n x y = sample img n x y.
Proof.
  induction img as [|[m b] img IH]; intros H n x y.
  - reflexivity.
  - unfold sample, focal_mode_pass in *. cbn [map lookup fst snd].
    destruct (String.eqb n m).
    + rewrite (window_of_uniform_band b c x y) by (apply (H m); left; reflexivity).
      rewrite (mode_of_constant_list (repeat c 9) c).
      * symmetry. apply (H m). left. reflexivity.
      * discriminate.
      * repeat constructor.
    + apply IH. intros n' b' Hin. apply (H n'). right. exact Hin.
Qed.

End Smoothing.

(** C9.  A classification raster in which every pixel carries the same
    class label [c] is returned unchanged by the 3 by 3 mode filter with one
    iteration: same bands, same value at every pixel, however the mode
    reducer settles ties. *)
Theorem smoothing_a_uniform_raster_changes_nothing :
  forall (tie : Q -> Q -> bool) (classified : Image) (c : Q),
    (forall n b, In (n, b) classified -> forall i j, b i j = Some c) ->
    bandNames (smoothed tie classified) = bandNames classified
    /\ forall n x y,
         sample (smoothed tie classified) n x y = sample classified n x y.
Proof.
  intros tie classified c H. split.
  - unfold smoothed, bandNames. simpl. unfold focal_mode_pass.
    rewrite map_map. reflexivity.
  - intros n x y. unfold smoothed. simpl.
    apply focal_mode_pass_uniform with (c := c). exact H.
Qed.

Lemma smoothing_a_uniform_raster_changes_nothing_witness :
  bandNames (smoothed (fun v w => Qle_bool v w) [("prediction", flat 2)])
  = bandNames [("prediction", flat 2)]
  /\ forall n x y,
       sample (smoothed (fun v w => Qle_bool v w) [("prediction", flat 2)]) n x y
       = sample [("prediction", flat 2)] n x y.
Proof.
  apply (smoothing_a_uniform_raster_changes_nothing
           (fun v w => Qle_bool v w) [("prediction", flat 2)] 2).
  intros n b [Hin|[]] i j. injection Hin as _ <-. reflexivity.
Defined.

End MappingProperties.

(* ================================================================== *)
(** * Properties of the training script                                *)
(* ================================================================== *)

Module TrainingProperties.

Import Training.
Open Scope string_scope.

(** ** The hyperparameter grid *)

Lemma targetSizesGrid_size : List.length targetSizesGrid = 9%nat.
Proof. reflexivity. Qed.

Lemma rfParamsGrid_size : List.length rfParamsGrid = 9%nat.
Proof. reflexivity. Qed.

Lemma allCombinations_size : List.length allCombinations = 81%nat.
Proof. reflexivity. Qed.

(** The enumeration is the Cartesian product, target sizes outermost:
    position [9 i + j] holds the pair of the [i]-th target-size triple and
    the [j]-th forest configuration. *)
Lemma allCombinations_is_product (i j : nat) :
  (i < 9)%nat -> (j < 9)%nat ->
  exists ts rp,
    nth_error targetSizesGrid i = Some ts
    /\ nth_error rfParamsGrid j = Some rp
    /\ nth_error allCombinations (9 * i + j) = Some (mkCombination ts rp).
Proof.
  intros Hi Hj.
  do 9 (destruct i as [|i]; [
    do 9 (destruct j as [|j]; [eexists; eexists; repeat split|]); exfalso; lia |]).
  exfalso; lia.
Qed.

(** ** Collections *)

Lemma insert_by_length key f l :
  List.length (insert_by key f l) = S (List.length l).
Proof.
  induction l as [|g l IH]; simpl; [reflexivity|].
  destruct (Qle_bool (key f) (key g)); simpl; [reflexivity|]. now rewrite IH.
Qed.

Lemma sort_by_length key l : List.length (sort_by key l) = List.length l.
Proof.
  induction l as [|f l IH]; simpl; [reflexivity|].
  unfold sort_by in *. simpl. now rewrite insert_by_length, IH.
Qed.

Lemma insert_by_In key f l g : In g (insert_by key f l) -> g = f \/ In g l.
Proof.
  induction l as [|h l IH]; simpl.
  - intros [<-|[]]. now left.
  - destruct (Qle_bool (key f) (key h)); simpl.
    + intros [<-|[<-|H]]; auto.
    + intros [<-|H]; auto. destruct (IH H); auto.
Qed.

Lemma sort_by_In key l g : In g (sort_by key l) -> In g l.
Proof.
  induction l as [|f l IH]; simpl; [auto|].
  intros H. apply insert_by_In in H. destruct H as [->|H]; auto.
Qed.

Lemma limit_length max key l :
  List.length (limit max key l) = Nat.min (Z.to_nat max) (List.length l).
Proof.
  unfold limit. now rewrite length_firstn, sort_by_length.
Qed.

Lemma firstn_In_list {A : Type} (n : nat) (l : list A) (a : A) :
  In a (firstn n l) -> In a l.
Proof.
  revert l. induction n as [|n IH]; intros [|b l]; simpl; try tauto.
  intros [->|H]; auto.
Qed.

Lemma limit_In max key l g : In g (limit max key l) -> In g l.
Proof.
  unfold limit. intros H. apply sort_by_In with (key := key).
  eapply firstn_In_list; eauto.
Qed.

Lemma insert_by_perm key f l : Permutation (f :: l) (insert_by key f l).
Proof.
  induction l as [|g l IH]; simpl; [reflexivity|].
  destruct (Qle_bool (key f) (key g)); [reflexivity|].
  rewrite perm_swap. now apply perm_skip.
Qed.

Lemma sort_by_perm key l : Permutation l (sort_by key l).
Proof.
  induction l as [|f l IH]; simpl; [reflexivity|].
  unfold sort_by in *. simpl. rewrite <- insert_by_perm. now apply perm_skip.
Qed.

Lemma firstn_NoDup {A : Type} (n : nat) (l : list A) : NoDup l -> NoDup (firstn n l).
Proof.
  revert l. induction n as [|n IH]; intros [|a l] H; simpl; try constructor.
  - inversion H as [|? ? Ha Hl]; subst. intros Hin. apply Ha.
    eapply firstn_In_list; eauto.
  - inversion H; subst. auto.
Qed.

(** [limit] picks distinct elements of a collection of distinct elements. *)
Lemma limit_NoDup max key l : NoDup l -> NoDup (limit max key l).
Proof.
  intros H. unfold limit. apply firstn_NoDup.
  eapply Permutation_NoDup; [apply sort_by_perm|exact H].
Qed.

Lemma labelled_merge c a b :
  labelled c (merge a b) = merge (labelled c a) (labelled c b).
Proof. unfold labelled, merge. apply filter_app. Qed.

Lemma labelled_In c l f : In f (labelled c l) -> label f = c /\ In f l.
Proof.
  unfold labelled. rewrite filter_In. intros [H E]. split; [lia|exact H].
Qed.

Lemma labelled_all c l :
  (forall f, In f l -> label f = c) -> labelled c l = l.
Proof.
  induction l as [|f l IH]; intros H; simpl; [reflexivity|].
  rewrite (H f) by (now left). rewrite Z.eqb_refl. f_equal.
  apply IH. intros g Hg. apply H. now right.
Qed.

Lemma labelled_none c l :
  (forall f, In f l -> label f <> c) -> labelled c l = [].
Proof.
  induction l as [|f l IH]; intros H; simpl; [reflexivity|].
  destruct (Z.eqb_spec (label f) c) as [E|_].
  - exfalso. apply (H f); [now left|exact E].
  - apply IH. intros g Hg. apply H. now right.
Qed.

Lemma labelled_idem c l : labelled c (labelled c l) = labelled c l.
Proof.
  apply labelled_all. intros f Hf. now apply labelled_In in Hf.
Qed.

(** ** The class-size histogram *)

Fixpoint entry (d : Dictionary) (k : Z) : option Z :=
  match d with
  | [] => None
  | (k', n) :: rest => if (k =? k')%Z then Some n else entry rest k
  end.

Lemma getNumber_entry (d : Dictionary) (k : Z) :
  getNumber d k
  = match entry d k with
    | Some n => Ok (inject_Z n)
    | None => Raise (ServerError "Dictionary.get: key not found")
    end.
Proof.
  induction d as [|[k' n] d IH]; simpl; [reflexivity|].
  destruct (k =? k')%Z; [reflexivity|exact IH].
Qed.

Lemma entry_increment (k : Z) (d : Dictionary) (c : Z) :
  entry (increment k d) c
  = if (c =? k)%Z
    then Some (match entry d c with Some n => n + 1 | None => 1 end)%Z
    else entry d c.
Proof.
  induction d as [|[k' n] d IH]; simpl.
  - destruct (c =? k)%Z; reflexivity.
  - destruct (Z.eqb_spec k k') as [->|Hk]; simpl.
    + destruct (c =? k')%Z; reflexivity.
    + destruct (Z.eqb_spec c k') as [->|Hc].
      * destruct (Z.eqb_spec k' k); [congruence|reflexivity].
      * exact IH.
Qed.

Lemma entry_frequencyHistogram (features : FeatureCollection) (c : Z) :
  entry (frequencyHistogram (map label features)) c
  = if (Z.of_nat (List.length (labelled c features)) =? 0)%Z
    then None
    else Some (Z.of_nat (List.length (labelled c features))).
Proof.
  induction features as [|f l IH]; [reflexivity|].
  cbn [map frequencyHistogram fold_right]. fold (frequencyHistogram (map label l)).
  rewrite entry_increment, IH. cbn [labelled filter]. fold (labelled c l).
  rewrite (Z.eqb_sym c (label f)).
  destruct (label f =? c)%Z; cbn [List.length].
  - destruct (Z.eqb_spec (Z.of_nat (List.length (labelled c l))) 0) as [E|E].
    + destruct (Z.eqb_spec (Z.of_nat (S (List.length (labelled c l)))) 0); [lia|].
      f_equal. lia.
    + destruct (Z.eqb_spec (Z.of_nat (S (List.length (labelled c l)))) 0); [lia|].
      f_equal. lia.
  - reflexivity.
Qed.

Lemma getNumber_classSizesDict (features : FeatureCollection) (c : Z) :
  (0 < Z.of_nat (List.length (labelled c features)))%Z ->
  getNumber (classSizesDict features) c
  = Ok (inject_Z (Z.of_nat (List.length (labelled c features)))).
Proof.
  intros H. unfold classSizesDict.
  rewrite getNumber_entry, entry_frequencyHistogram.
  destruct (Z.eqb_spec (Z.of_nat (List.length (labelled c features))) 0); [lia|reflexivity].
Qed.

(** ** [oversampleClass] *)

Section Script.

Variable ECO_ZONE_ID : Z.
Variable optimalFeatures : list string.
Variable completeSamples : FeatureCollection.
Variable randomValue : Z -> Feature -> Q.
Variable smileRandomForest : Q -> Q -> Z -> Q -> FeatureCollection -> Feature -> Z.

Local Abbreviation oversampleClass := (Training.oversampleClass randomValue).
Local Abbreviation globals := (Training.globals randomValue).

(** the number of duplicates [oversampleClass] asks [limit] for *)
Definition overSize (features : FeatureCollection) (c : Z) (m : Q) : Z :=
  (EE.round (Qmax (m * inject_Z (Z.of_nat (List.length (labelled c features)))) 0)
   - Z.of_nat (List.length (labelled c features)))%Z.

(** The output is the class samples followed by duplicates: each of them
    a class sample, drawn without replacement (distinct when the samples
    are), and as many as asked for but never more than the class has
    samples. *)
Lemma oversampleClass_spec (features : FeatureCollection) (c : Z) (m : Q) :
  exists over,
    oversampleClass features c (Ok m) = Ok (merge (labelled c features) over)
    /\ (forall f, In f over -> In f (labelled c features))
    /\ (NoDup features -> NoDup over)
    /\ List.length over
       = Nat.min (Z.to_nat (overSize features c m)) (List.length (labelled c features)).
Proof.
  unfold Training.oversampleClass, overSize. cbn [bind].
  set (s := List.length (labelled c features)).
  set (over := (EE.round (Qmax (m * inject_Z (Z.of_nat s)) 0) - Z.of_nat s)%Z).
  unfold Algorithms_If.
  destruct (Z.ltb_spec 0 over) as [Hpos|Hneg]; cbn.
  - eexists. split; [reflexivity|]. split; [|split].
    + intros f. apply limit_In.
    + intros H. apply limit_NoDup. unfold labelled. now apply NoDup_filter.
    + apply limit_length.
  - exists []. split; [reflexivity|]. split; [|split].
    + intros f [].
    + intros _. constructor.
    + replace (Z.to_nat over) with 0%nat by lia. reflexivity.
Qed.

Lemma oversampleClass_size (features : FeatureCollection) (c : Z) (m : Q) :
  exists out,
    oversampleClass features c (Ok m) = Ok out
    /\ List.length out
       = (List.length (labelled c features)
          + Nat.min (Z.to_nat (overSize features c m))
                    (List.length (labelled c features)))%nat.
Proof.
  destruct (oversampleClass_spec features c m) as (over & E & _ & _ & L).
  eexists. split; [exact E|]. unfold merge. now rewrite length_app, L.
Qed.

(** Every sample of the output carries the class label. *)
Lemma oversampleClass_labels (features : FeatureCollection) (c : Z) (m : result Q)
    (out : FeatureCollection) :
  oversampleClass features c m = Ok out -> forall f, In f out -> label f = c.
Proof.
  destruct m as [m|e]; [|discriminate].
  destruct (oversampleClass_spec features c m) as (over & E & I & _).
  rewrite E. intros [= <-] f Hf. unfold merge in Hf. apply in_app_or in Hf.
  destruct Hf as [Hf|Hf]; [|apply I in Hf]; now apply labelled_In in Hf.
Qed.

(** It is never more than doubled. *)
Lemma oversampleClass_at_most_doubles (features : FeatureCollection) (c : Z) (m : Q) :
  exists out,
    oversampleClass features c (Ok m) = Ok out
    /\ (List.length out <= 2 * List.length (labelled c features))%nat.
Proof.
  destruct (oversampleClass_size features c m) as (out & E & L).
  exists out. split; [exact E|]. lia.
Qed.

Lemma round_half_up (t : Z) : EE.round (inject_Z t) = t.
Proof.
  unfold EE.round.
  rewrite (Qfloor_comp _ ((2 * t + 1) # 2)).
  - unfold Qfloor. symmetry. apply (Z.div_unique (2 * t + 1) 2 t 1); lia.
  - unfold inject_Z, Qeq, Qplus. cbn [Qnum Qden]. lia.
Qed.

(** With the multiplier the script computes, target over observed size,
    the number of duplicates asked for is the shortfall. *)
Lemma overSize_of_quotient (features : FeatureCollection) (c t : Z) :
  (0 < Z.of_nat (List.length (labelled c features)))%Z ->
  (0 <= t)%Z ->
  overSize features c
           (divide (inject_Z t)
                   (inject_Z (Z.of_nat (List.length (labelled c features)))))
  = (t - Z.of_nat (List.length (labelled c features)))%Z.
Proof.
  intros Hs Ht. unfold overSize.
  set (s := Z.of_nat (List.length (labelled c features))) in *.
  assert (Hs0 : ~ inject_Z s == 0).
  { unfold inject_Z, Qeq. simpl. lia. }
  assert (E : divide (inject_Z t) (inject_Z s) * inject_Z s == inject_Z t).
  { unfold divide. destruct (Qeq_bool (inject_Z s) 0) eqn:B.
    - apply Qeq_bool_eq in B. contradiction.
    - field. exact Hs0. }
  assert (P : 0 <= inject_Z t).
  { unfold inject_Z, Qle. cbn [Qnum Qden]. lia. }
  assert (M : Qmax (divide (inject_Z t) (inject_Z s) * inject_Z s) 0 == inject_Z t).
  { rewrite Q.max_l; [exact E|]. rewrite E. exact P. }
  assert (R : EE.round (Qmax (divide (inject_Z t) (inject_Z s) * inject_Z s) 0)
              = EE.round (inject_Z t)).
  { unfold EE.round. apply Qfloor_comp. rewrite M. reflexivity. }
  rewrite R, round_half_up. reflexivity.
Qed.

(** The class count after oversampling to a target [t]: the target when it
    lies between the class size [s] and [2 s], [2 s] beyond that, and [s]
    when the target does not exceed [s]. *)
Lemma oversampleClass_count (features : FeatureCollection) (c t : Z) :
  (0 < Z.of_nat (List.length (labelled c features)))%Z ->
  (0 <= t)%Z ->
  exists over,
    oversampleClass features c
      (Ok (divide (inject_Z t)
                  (inject_Z (Z.of_nat (List.length (labelled c features))))))
    = Ok (merge (labelled c features) over)
    /\ (NoDup features -> NoDup over)
    /\ Z.of_nat (List.length (labelled c (merge (labelled c features) over)))
       = Z.max (Z.of_nat (List.length (labelled c features)))
               (Z.min t (2 * Z.of_nat (List.length (labelled c features)))).
Proof.
  intros Hs Ht.
  destruct (oversampleClass_spec features c
              (divide (inject_Z t)
                      (inject_Z (Z.of_nat (List.length (labelled c features))))))
    as (over & E & I & D & L).
  exists over. split; [exact E|]. split; [exact D|].
  rewrite (labelled_all c (merge (labelled c features) over))
    by (eapply oversampleClass_labels; exact E).
  unfold merge. rewrite length_app, L, overSize_of_quotient by assumption. lia.
Qed.

(** ** The call that names no function *)

(** The scope in which the third call would resolve: the name it uses
    bound to the function the first two calls use. *)
Definition repaired : Scope :=
  fun name =>
    if String.eqb name "oversampledClass" then Some oversampleClass else globals name.

Lemma call_oversampleClass (features : FeatureCollection) (c : Z) (m : result Q) :
  call globals "oversampleClass" features c m = Ok (oversampleClass features c m).
Proof. reflexivity. Qed.

Lemma call_oversampledClass (features : FeatureCollection) (c : Z) (m : result Q) :
  call globals "oversampledClass" features c m
  = Raise (ReferenceError "oversampledClass").
Proof. reflexivity. Qed.

Lemma call_repaired (name : string) (features : FeatureCollection) (c : Z)
    (m : result Q) :
  name = "oversampleClass" \/ name = "oversampledClass" ->
  call repaired name features c m = Ok (oversampleClass features c m).
Proof. intros [->| ->]; reflexivity. Qed.

Lemma balancedTrainingSet_raises (pool : FeatureCollection) (ts : list Q) :
  balancedTrainingSet globals pool ts = Raise (ReferenceError "oversampledClass").
Proof.
  unfold balancedTrainingSet.
  rewrite !call_oversampleClass, call_oversampledClass. reflexivity.
Qed.

Lemma evaluateParams_raises (combination : Combination) (iteration : Z) :
  evaluateParams ECO_ZONE_ID optimalFeatures completeSamples randomValue
                 smileRandomForest globals combination iteration
  = Raise (ReferenceError "oversampledClass").
Proof.
  unfold evaluateParams. rewrite balancedTrainingSet_raises. reflexivity.
Qed.

Lemma results_raises :
  results ECO_ZONE_ID optimalFeatures completeSamples randomValue
          smileRandomForest globals
  = Raise (ReferenceError "oversampledClass").
Proof.
  unfold results.
  replace sequence with (0%nat :: seq 1 80) by reflexivity.
  cbn [mapM].
  replace (nth_error allCombinations 0)
    with (Some (mkCombination [400; 400; 600] (mkRFParams 50 1 0.5 0.5)))
    by reflexivity.
  rewrite evaluateParams_raises. reflexivity.
Qed.

(** In the repaired scope the balancing step runs, and the set it builds
    keeps the stable class as it is and holds every class between its
    observed size and twice that. *)
Lemma balancedTrainingSet_repaired (pool : FeatureCollection) (t1 t2 t3 : Z) :
  (0 <= t1)%Z -> (0 <= t2)%Z -> (0 <= t3)%Z ->
  (0 < Z.of_nat (List.length (labelled 1 pool)))%Z ->
  (0 < Z.of_nat (List.length (labelled 2 pool)))%Z ->
  (0 < Z.of_nat (List.length (labelled 3 pool)))%Z ->
  exists balanced,
    balancedTrainingSet repaired pool [inject_Z t1; inject_Z t2; inject_Z t3]
    = Ok (Ok balanced)
    /\ labelled 0 balanced = labelled 0 pool
    /\ Z.of_nat (List.length (labelled 1 balanced))
       = Z.max (Z.of_nat (List.length (labelled 1 pool)))
               (Z.min t1 (2 * Z.of_nat (List.length (labelled 1 pool))))
    /\ Z.of_nat (List.length (labelled 2 balanced))
       = Z.max (Z.of_nat (List.length (labelled 2 pool)))
               (Z.min t2 (2 * Z.of_nat (List.length (labelled 2 pool))))
    /\ Z.of_nat (List.length (labelled 3 balanced))
       = Z.max (Z.of_nat (List.length (labelled 3 pool)))
               (Z.min t3 (2 * Z.of_nat (List.length (labelled 3 pool)))).
Proof.
  intros H1 H2 H3 S1 S2 S3.
  destruct (oversampleClass_count pool 1 t1 S1 H1) as (v1 & E1 & _ & C1).
  destruct (oversampleClass_count pool 2 t2 S2 H2) as (v2 & E2 & _ & C2).
  destruct (oversampleClass_count pool 3 t3 S3 H3) as (v3 & E3 & _ & C3).
  set (o1 := merge (labelled 1 pool) v1) in *.
  set (o2 := merge (labelled 2 pool) v2) in *.
  set (o3 := merge (labelled 3 pool) v3) in *.
  pose proof (oversampleClass_labels _ _ _ _ E1) as L1.
  pose proof (oversampleClass_labels _ _ _ _ E2) as L2.
  pose proof (oversampleClass_labels _ _ _ _ E3) as L3.
  exists (merge (merge (merge (labelled 0 pool) o1) o2) o3).
  split.
  - unfold balancedTrainingSet.
    rewrite !call_repaired by (auto).
    unfold class1Multiplier, class2Multiplier, class3Multiplier.
    rewrite !getNumber_classSizesDict by assumption.
    cbn [get nth_error bind]. rewrite E1, E2, E3. reflexivity.
  - assert (N : forall c d l, (forall f, In f l -> label f = d) -> c <> d ->
                              labelled c l = []).
    { intros c d l Hl Hcd. apply labelled_none. intros f Hf. rewrite (Hl f Hf).
      congruence. }
    assert (Z0 : forall c, c <> 0%Z -> labelled c (labelled 0 pool) = []).
    { intros c Hc. apply (N c 0%Z); [|exact Hc].
      intros f Hf. now apply labelled_In in Hf. }
    rewrite !labelled_merge.
    rewrite labelled_idem, (N 0%Z 1%Z o1), (N 0%Z 2%Z o2), (N 0%Z 3%Z o3)
      by (assumption || lia).
    rewrite (Z0 1%Z), (Z0 2%Z), (Z0 3%Z) by lia.
    rewrite (N 1%Z 2%Z o2), (N 1%Z 3%Z o3), (N 2%Z 1%Z o1), (N 2%Z 3%Z o3),
            (N 3%Z 1%Z o1), (N 3%Z 2%Z o2) by (assumption || lia).
    unfold merge. rewrite !app_nil_r. cbn [app].
    repeat split; assumption.
Qed.

End Script.

(** ** Class balancing *)

(** a training pool with 100 samples of class 1 and one sample of each of
    the classes 0, 2 and 3 *)
Definition crowd : FeatureCollection :=
  (map (fun i => mkFeature i 1) (seq 0 100)
   ++ [mkFeature 100 0; mkFeature 101 2; mkFeature 102 3])%list.

(** C2.  On a pool with 100 samples of class 1 and the target 400 of the
    first grid triple, the multiplier is 400 / 100 and [oversampleClass]
    returns 200 samples of class 1, not 400: [limit] takes its duplicates
    from the 100 class samples, each at most once. *)
Theorem oversampling_stops_at_twice_the_class_size :
  forall (randomValue : Z -> Feature -> Q),
  exists over,
    class1Multiplier crowd [400; 400; 600] = Ok (divide 400 (inject_Z 100))
    /\ oversampleClass randomValue crowd 1 (class1Multiplier crowd [400; 400; 600])
       = Ok (merge (labelled 1 crowd) over)
    /\ NoDup over
    /\ List.length (labelled 1 crowd) = 100%nat
    /\ List.length (labelled 1 (merge (labelled 1 crowd) over)) = 200%nat.
Proof.
  intros randomValue.
  destruct (oversampleClass_count randomValue crowd 1 400) as (over & E & D & C);
    [reflexivity|lia|].
  set (n := List.length (labelled 1 (merge (labelled 1 crowd) over))) in *.
  exists over. split; [reflexivity|]. split; [exact E|]. split.
  - apply D. apply (NoDup_map_inv fid). apply (seq_NoDup 103 0).
  - split; [reflexivity|].
    change (List.length (labelled 1 crowd)) with 100%nat in C. lia.
Qed.

(** C6.  Whatever the training pool and the target-size triple, the
    balancing step of the script raises [ReferenceError] at its third call,
    before the balanced training set is built. *)
Theorem balancing_raises_before_the_balanced_set_is_built :
  forall (randomValue : Z -> Feature -> Q)
         (trainingOriginal : FeatureCollection) (targetSizes : list Q),
    balancedTrainingSet (globals randomValue) trainingOriginal targetSizes
    = Raise (ReferenceError "oversampledClass").
Proof.
  intros. apply balancedTrainingSet_raises.
Qed.

(** C10.  [oversampleClass] returns the class samples followed by the
    duplicates, so it removes none; but no call of [evaluateParams] gets as
    far as a balanced training set. *)
Theorem oversampling_keeps_the_class_but_evaluation_raises :
  forall (ECO_ZONE_ID : Z) (optimalFeatures : list string)
         (completeSamples : FeatureCollection)
         (randomValue : Z -> Feature -> Q)
         (smileRandomForest : Q -> Q -> Z -> Q -> FeatureCollection -> Feature -> Z),
    (forall features c m,
        exists over,
          oversampleClass randomValue features c (Ok m)
          = Ok (merge (labelled c features) over))
    /\ (forall combination iteration,
          evaluateParams ECO_ZONE_ID optimalFeatures completeSamples randomValue
                         smileRandomForest (globals randomValue)
                         combination iteration
          = Raise (ReferenceError "oversampledClass")).
Proof.
  intros. split.
  - intros features c m.
    destruct (oversampleClass_spec randomValue features c m) as (over & E & _).
    exists over. exact E.
  - intros. apply evaluateParams_raises.
Qed.

(** C7.  The grid holds the 81 combinations, and the grid search over them
    raises [ReferenceError] in its first call of [evaluateParams]: no
    Evaluation Record is emitted. *)
Theorem grid_search_raises_on_its_81_combinations :
  forall (ECO_ZONE_ID : Z) (optimalFeatures : list string)
         (completeSamples : FeatureCollection)
         (randomValue : Z -> Feature -> Q)
         (smileRandomForest : Q -> Q -> Z -> Q -> FeatureCollection -> Feature -> Z),
    List.length allCombinations = 81%nat
    /\ results ECO_ZONE_ID optimalFeatures completeSamples randomValue
               smileRandomForest (globals randomValue)
       = Raise (ReferenceError "oversampledClass").
Proof.
  intros. split; [reflexivity|apply results_raises].
Qed.

(** ** A test split that misses a class *)

(** a sample library of two samples per class, and a random column that
    sends both samples of class 2 to the training pool: the test split
    holds the classes 0, 1 and 3 only *)
Definition library : FeatureCollection :=
  [mkFeature 0 0; mkFeature 1 1; mkFeature 2 2; mkFeature 3 3;
   mkFeature 4 0; mkFeature 5 1; mkFeature 6 2; mkFeature 7 3].

Definition draw (seed : Z) (f : Feature) : Q :=
  if (label f =? 2)%Z then 1 # 4
  else if (fid f <? 4)%nat then 1 # 2
  else 9 # 10.

(** C5.  On a sample library whose test split holds no sample of class 2
    (and whose training pool holds every class), [evaluateParams] raises
    [ReferenceError] at the third balancing call: no Evaluation Record is
    produced, so neither a recall of class 2, missing or zero, nor any of
    the remaining metrics. *)
Theorem no_record_for_a_test_split_that_misses_a_class :
  forall (smileRandomForest : Q -> Q -> Z -> Q -> FeatureCollection -> Feature -> Z),
    map label (testingSet library draw 0) = [0; 1; 3]%Z
    /\ map label (trainingOriginal library draw 0) = [0; 1; 2; 3; 2]%Z
    /\ evaluateParams 1 ["NBR"; "NBR_chg_ra"; "NBR_rol_3y"] library draw
                      smileRandomForest (globals draw)
                      (mkCombination [400; 400; 600] (mkRFParams 50 1 0.5 0.5)) 0
       = Raise (ReferenceError "oversampledClass").
Proof.
  intros smileRandomForest.
  split; [reflexivity|]. split; [reflexivity|].
  apply evaluateParams_raises.
Qed.

End TrainingProperties.

(* ================================================================== *)
(** * Further properties of the training script                        *)
(* ================================================================== *)

Module TrainingFacts.

Import Training TrainingProperties.
Open Scope string_scope.

(** ** The 75 / 25 split *)

Lemma filter_split_perm {A : Type} (p : A -> bool) (l : list A) :
  Permutation (filter (fun a => negb (p a)) l ++ filter p l) l.
Proof.
  induction l as [|a l IH]; simpl; [constructor|].
  destruct (p a); simpl.
  - rewrite <- Permutation_middle. now constructor.
  - now constructor.
Qed.

(** X1.  The training pool and the test pool of an iteration partition the
    complete samples: together they are the complete samples (each sample
    as often as it occurs there, so the sizes add up), and no sample is in
    both pools. *)
Theorem split_partitions_the_samples :
  forall (completeSamples : FeatureCollection) (randomValue : Z -> Feature -> Q)
         (iteration : Z),
    Permutation (trainingOriginal completeSamples randomValue iteration
                 ++ testingSet completeSamples randomValue iteration)
                completeSamples
    /\ (List.length (trainingOriginal completeSamples randomValue iteration)
        + List.length (testingSet completeSamples randomValue iteration)
        = List.length completeSamples)%nat
    /\ (forall f,
           In f (trainingOriginal completeSamples randomValue iteration) ->
           ~ In f (testingSet completeSamples randomValue iteration)).
Proof.
  intros samples rv it.
  assert (P := filter_split_perm
                 (fun f => Qle_bool 0.75 (rv (it + 100)%Z f)) samples).
  split; [exact P|]. split.
  - apply Permutation_length in P. now rewrite length_app in P.
  - unfold trainingOriginal, testingSet. intros f H1 H2.
    apply filter_In in H1. apply filter_In in H2.
    destruct H1 as [_ H1]. destruct H2 as [_ H2]. rewrite H2 in H1. discriminate.
Qed.

(** ** Class sizes and multipliers *)

(** X2.  The class-size dictionary answers a label that occurs in the
    training pool with the number of its samples, and fails on a label that
    does not occur: it never answers 0. *)
Theorem class_size_is_count_or_missing_key :
  forall (features : FeatureCollection) (c : Z),
    getNumber (classSizesDict features) c
    = if (Z.of_nat (List.length (labelled c features)) =? 0)%Z
      then Raise (ServerError "Dictionary.get: key not found")
      else Ok (inject_Z (Z.of_nat (List.length (labelled c features)))).
Proof.
  intros features c. unfold classSizesDict.
  rewrite getNumber_entry, entry_frequencyHistogram.
  destruct (Z.of_nat (List.length (labelled c features)) =? 0)%Z; reflexivity.
Qed.

Lemma multiplier_cases (pool : FeatureCollection) (ts : list Q) (k : nat) (c : Z) :
  match (do t <- get ts k;
         do s <- getNumber (classSizesDict pool) c;
         Ok (divide t s)) with
  | Ok m =>
      exists t,
        nth_error ts k = Some t
        /\ (0 < Z.of_nat (List.length (labelled c pool)))%Z
        /\ m * inject_Z (Z.of_nat (List.length (labelled c pool))) == t
  | Raise _ =>
      nth_error ts k = None \/ List.length (labelled c pool) = 0%nat
  end.
Proof.
  unfold get. destruct (nth_error ts k) as [t|]; cbn [bind]; [|now left].
  unfold classSizesDict. rewrite getNumber_entry, entry_frequencyHistogram.
  destruct (Z.eqb_spec (Z.of_nat (List.length (labelled c pool))) 0) as [E|E];
    cbn [bind].
  - right. lia.
  - exists t. split; [reflexivity|]. split; [lia|].
    unfold divide.
    destruct (Qeq_bool (inject_Z (Z.of_nat (List.length (labelled c pool)))) 0) eqn:B.
    + apply Qeq_bool_eq in B. unfold inject_Z, Qeq in B. cbn [Qnum Qden] in B. lia.
    + field. intros B'. unfold inject_Z, Qeq in B'. cbn [Qnum Qden] in B'. lia.
Qed.

(** X3.  Each class multiplier is the class's target divided by its
    observed size: when it has a value, that value times the observed size
    is the target and the class is present; it has none exactly when the
    triple lacks the target or the class is absent from the training pool,
    so it is never a division by zero. *)
Theorem multiplier_is_target_over_observed_size :
  forall (pool : FeatureCollection) (ts : list Q),
    match class1Multiplier pool ts with
    | Ok m =>
        exists t,
          nth_error ts 0 = Some t
          /\ (0 < Z.of_nat (List.length (labelled 1 pool)))%Z
          /\ m * inject_Z (Z.of_nat (List.length (labelled 1 pool))) == t
    | Raise _ => nth_error ts 0 = None \/ List.length (labelled 1 pool) = 0%nat
    end
    /\ match class2Multiplier pool ts with
       | Ok m =>
           exists t,
             nth_error ts 1 = Some t
             /\ (0 < Z.of_nat (List.length (labelled 2 pool)))%Z
             /\ m * inject_Z (Z.of_nat (List.length (labelled 2 pool))) == t
       | Raise _ => nth_error ts 1 = None \/ List.length (labelled 2 pool) = 0%nat
       end
    /\ match class3Multiplier pool ts with
       | Ok m =>
           exists t,
             nth_error ts 2 = Some t
             /\ (0 < Z.of_nat (List.length (labelled 3 pool)))%Z
             /\ m * inject_Z (Z.of_nat (List.length (labelled 3 pool))) == t
       | Raise _ => nth_error ts 2 = None \/ List.length (labelled 3 pool) = 0%nat
       end.
Proof.
  intros pool ts. split; [|split].
  - exact (multiplier_cases pool ts 0 1).
  - exact (multiplier_cases pool ts 1 2).
  - exact (multiplier_cases pool ts 2 3).
Qed.

(** ** Oversampling *)

(** X4.  Oversampling a class towards a target [t] with the multiplier the
    script computes leaves the class with [max s (min t (2 s))] samples,
    [s] being its observed size: the target when it lies between [s] and
    [2 s], never fewer than [s] and never more than [2 s]. *)
Theorem oversampled_class_size :
  forall (randomValue : Z -> Feature -> Q) (features : FeatureCollection) (c t : Z),
    (0 < Z.of_nat (List.length (labelled c features)))%Z ->
    (0 <= t)%Z ->
    exists out,
      oversampleClass randomValue features c
        (Ok (divide (inject_Z t)
                    (inject_Z (Z.of_nat (List.length (labelled c features))))))
      = Ok out
      /\ Z.of_nat (List.length (labelled c out))
         = Z.max (Z.of_nat (List.length (labelled c features)))
                 (Z.min t (2 * Z.of_nat (List.length (labelled c features)))).
Proof.
  intros rv features c t Hs Ht.
  destruct (oversampleClass_count rv features c t Hs Ht) as (over & E & _ & C).
  eexists. split; [exact E|exact C].
Qed.

Definition three_samples : FeatureCollection :=
  [mkFeature 0 1; mkFeature 1 0; mkFeature 2 1].

Lemma oversampled_class_size_witness :
  exists out,
    oversampleClass (fun _ f => inject_Z (Z.of_nat (fid f)) / 10) three_samples 1
      (Ok (divide (inject_Z 3)
                  (inject_Z (Z.of_nat (List.length (labelled 1 three_samples))))))
    = Ok out
    /\ Z.of_nat (List.length (labelled 1 out))
       = Z.max (Z.of_nat (List.length (labelled 1 three_samples)))
               (Z.min 3 (2 * Z.of_nat (List.length (labelled 1 three_samples)))).
Proof.
  apply (oversampled_class_size
           (fun _ f => inject_Z (Z.of_nat (fid f)) / 10) three_samples 1 3).
  - reflexivity.
  - lia.
Defined.

(** X5.  Whatever the multiplier, the output of [oversampleClass] holds
    exactly the samples of the requested class: every output sample is an
    input sample carrying that label, and every input sample carrying it
    is in the output. *)
Theorem oversampling_neither_loses_nor_invents_samples :
  forall (randomValue : Z -> Feature -> Q) (features : FeatureCollection)
         (c : Z) (m : Q),
  exists out,
    oversampleClass randomValue features c (Ok m) = Ok out
    /\ forall f, In f out <-> In f features /\ label f = c.
Proof.
  intros rv features c m.
  destruct (oversampleClass_spec rv features c m) as (over & E & I & _).
  eexists. split; [exact E|]. intros f. unfold merge. rewrite in_app_iff. split.
  - intros [H|H]; [|apply I in H]; apply labelled_In in H; tauto.
  - intros [H L]. left. unfold labelled. apply filter_In. split; [exact H|].
    now apply Z.eqb_eq.
Qed.

(** X6.  A multiplier of at most 1 (a target not above the observed size,
    a zero or a negative multiplier) duplicates nothing: the output is the
    class samples, once each, in their order. *)
Theorem no_oversampling_below_the_observed_size :
  forall (randomValue : Z -> Feature -> Q) (features : FeatureCollection)
         (c : Z) (m : Q),
    m <= 1 ->
    oversampleClass randomValue features c (Ok m) = Ok (labelled c features).
Proof.
  intros rv features c m Hm.
  destruct (oversampleClass_spec rv features c m) as (over & E & _ & _ & L).
  rewrite E. f_equal.
  assert (O : (overSize features c m <= 0)%Z).
  { unfold overSize.
    set (s := Z.of_nat (List.length (labelled c features))).
    assert (Hs : 0 <= inject_Z s).
    { unfold inject_Z, Qle. cbn [Qnum Qden]. lia. }
    assert (B : Qmax (m * inject_Z s) 0 <= inject_Z s).
    { apply Q.max_lub; [|exact Hs].
      setoid_replace (inject_Z s) with (1 * inject_Z s) at 2 by ring.
      apply Qmult_le_compat_r; assumption. }
    assert (R : (EE.round (Qmax (m * inject_Z s) 0) <= EE.round (inject_Z s))%Z).
    { unfold EE.round. apply Qfloor_resp_le. apply Qplus_le_l. exact B. }
    rewrite round_half_up in R. lia. }
  replace (Z.to_nat (overSize features c m)) with 0%nat in L by lia.
  destruct over; [|discriminate]. unfold merge. apply app_nil_r.
Qed.

Lemma no_oversampling_below_the_observed_size_witness :
  oversampleClass (fun _ f => inject_Z (Z.of_nat (fid f)) / 10) three_samples 1
                  (Ok (1 # 2))
  = Ok (labelled 1 three_samples).
Proof.
  apply (no_oversampling_below_the_observed_size
           (fun _ f => inject_Z (Z.of_nat (fid f)) / 10) three_samples 1 (1 # 2)).
  discriminate.
Defined.

(** ** The hyperparameter grid *)

Definition code_of (c : Combination) : list Z :=
  flat_map (fun q => [Qnum q; Zpos (Qden q)])
           (targetSizes c
            ++ [trees (rfParams c); leafPop (rfParams c);
                bagFrac (rfParams c); splitVar (rfParams c)])%list.

Definition same_code (a b : list Z) : bool :=
  if list_eq_dec Z.eq_dec a b then true else false.

Fixpoint distinct (l : list (list Z)) : bool :=
  match l with
  | [] => true
  | a :: rest => negb (existsb (same_code a) rest) && distinct rest
  end.

Lemma distinct_NoDup (l : list (list Z)) : distinct l = true -> NoDup l.
Proof.
  induction l as [|a l IH]; simpl; intros H; constructor.
  - apply andb_prop in H. destruct H as [H _]. intros Hin.
    apply negb_true_iff in H.
    assert (E : existsb (same_code a) l = true).
    { apply existsb_exists. exists a. split; [exact Hin|].
      unfold same_code. destruct (list_eq_dec Z.eq_dec a a); congruence. }
    congruence.
  - apply IH. apply andb_prop in H. tauto.
Qed.

(** X7.  The grid search enumerates each pair of a target-size triple and
    a forest configuration exactly once: the enumerated combinations are
    pairwise distinct, and a combination is enumerated if and only if its
    triple is in the target-size grid and its configuration in the forest
    grid. *)
Theorem grid_is_the_product_without_repetition :
  NoDup allCombinations
  /\ forall ts rp,
       In (mkCombination ts rp) allCombinations
       <-> In ts targetSizesGrid /\ In rp rfParamsGrid.
Proof.
  split.
  - apply (NoDup_map_inv code_of). apply distinct_NoDup. vm_compute. reflexivity.
  - intros ts rp. unfold allCombinations. rewrite in_concat. split.
    + intros (l & Hl & Hc). apply in_map_iff in Hl. destruct Hl as (ts' & <- & Hts).
      apply in_map_iff in Hc. destruct Hc as (rp' & E & Hrp).
      injection E as -> ->. tauto.
    + intros [Hts Hrp]. exists (map (mkCombination ts) rfParamsGrid). split.
      * apply in_map_iff. exists ts. tauto.
      * apply in_map. exact Hrp.
Qed.

End TrainingFacts.

(* ================================================================== *)
(** * Further properties of the mapping script                         *)
(* ================================================================== *)

Module MappingFacts.

Import Mapping MappingFeatures MappingProperties.
Open Scope string_scope.

(** ** Index Calculator *)

Lemma bandNames_addBand (img : Image) (nb : string * Band) :
  bandNames (addBand img nb) = addBand_name (bandNames img) (fst nb).
Proof.
  unfold addBand, addBand_name, fresh_name, bandNames.
  rewrite map_app. cbn [map fst].
  destruct (existsb (String.eqb (fst nb)) (map fst img)); reflexivity.
Qed.

(** The names [addBands] gives are those of the name table. *)
Lemma bandNames_addBands (img extra : Image) :
  bandNames (addBands img extra) = addBands_names (bandNames img) (bandNames extra).
Proof.
  unfold addBands, addBands_names. revert img.
  induction extra as [|nb extra IH]; intros img; [reflexivity|].
  cbn [fold_left bandNames map]. fold (bandNames extra).
  rewrite IH, bandNames_addBand. reflexivity.
Qed.

Lemma addBands_names_fresh (dst src : list string) :
  NoDup src ->
  (forall n, In n src -> ~ In n dst) ->
  addBands_names dst src = (dst ++ src)%list.
Proof.
  unfold addBands_names. revert dst.
  induction src as [|n src IH]; intros dst D F; cbn [fold_left].
  - now rewrite app_nil_r.
  - inversion D as [|? ? Hn Hs]; subst.
    assert (E : existsb (String.eqb n) dst = false).
    { destruct (existsb (String.eqb n) dst) eqn:X; [|reflexivity].
      apply existsb_exists in X. destruct X as (m & Hm & Em).
      apply String.eqb_eq in Em. subst m. exfalso. apply (F n); [now left|exact Hm]. }
    unfold addBand_name at 2. rewrite E.
    rewrite IH; [now rewrite <- app_assoc|exact Hs|].
    intros m Hm Hin. apply in_app_or in Hin. destruct Hin as [Hin|[<-|[]]].
    + apply (F m); [now right|exact Hin].
    + contradiction.
Qed.

(** X12.  [addIndices] needs the bands B1, B3, B4, B5 and B7 and nothing
    else: it succeeds exactly when the image has them.  It then keeps every
    input band and appends eight bands, in the order NBR, NDVI, NDMI, NDBI,
    RVI, SAVI, EVI, DVI: under these names when the image has no band of
    such a name, and with a numerical suffix for a name that is taken. *)
Theorem addIndices_needs_five_bands :
  forall img : Image,
    match addIndices img with
    | Ok out =>
        bandNames out = addBands_names (bandNames img) INDEX_BANDS
        /\ ((forall n, In n INDEX_BANDS -> ~ In n (bandNames img)) ->
            bandNames out = (bandNames img ++ INDEX_BANDS)%list)
        /\ Forall (fun b => lookup b img <> None) ["B1"; "B3"; "B4"; "B5"; "B7"]
    | Raise _ =>
        Exists (fun b => lookup b img = None) ["B1"; "B3"; "B4"; "B5"; "B7"]
    end.
Proof.
  intros img.
  unfold addIndices, nbr, ndvi, ndmi, ndbi, rvi, dvi, savi, evi,
         normalizedDifference.
  cbn [select bind].
  destruct (lookup "B4" img) as [b4|] eqn:E4; cbn [bind];
    [|right; right; left; exact E4].
  destruct (lookup "B7" img) as [b7|] eqn:E7; cbn [bind];
    [|do 4 right; left; exact E7].
  destruct (lookup "B3" img) as [b3|] eqn:E3; cbn [bind];
    [|right; left; exact E3].
  destruct (lookup "B5" img) as [b5|] eqn:E5; cbn [bind];
    [|do 3 right; left; exact E5].
  destruct (lookup "B1" img) as [b1|] eqn:E1;
    cbn [bind rename times1000 unary map List.length Nat.eqb combine fst snd
         image_divide subtract binary expression2 expression3];
    [|left; exact E1].
  assert (N : forall out,
             bandNames out = addBands_names (bandNames img) INDEX_BANDS ->
             bandNames out = addBands_names (bandNames img) INDEX_BANDS
             /\ ((forall n, In n INDEX_BANDS -> ~ In n (bandNames img)) ->
                 bandNames out = (bandNames img ++ INDEX_BANDS)%list)
             /\ Forall (fun b => lookup b img <> None)
                       ["B1"; "B3"; "B4"; "B5"; "B7"]).
  { intros out H. split; [exact H|]. split.
    - intros F. rewrite H. apply addBands_names_fresh; [|exact F].
      unfold INDEX_BANDS.
      repeat (constructor; [cbn [In]; intuition discriminate|]). constructor.
    - repeat constructor; congruence. }
  apply N. rewrite !bandNames_addBands. reflexivity.
Qed.

Lemma divide_in_unit_ball (v w : Q) :
  0 <= v -> 0 <= w -> -1 <= divide (v - w) (v + w) /\ divide (v - w) (v + w) <= 1.
Proof.
  intros Hv Hw. unfold divide.
  destruct (Qeq_bool (v + w) 0) eqn:B.
  - split; discriminate.
  - apply Qeq_bool_neq in B.
    assert (P : 0 < v + w).
    { apply Qle_lteq in Hv. apply Qle_lteq in Hw.
      destruct Hv as [Hv|Hv], Hw as [Hw|Hw].
      - lra.
      - lra.
      - lra.
      - exfalso. apply B. rewrite <- Hv, <- Hw. reflexivity. }
    split.
    + apply Qle_shift_div_l; [exact P|]. lra.
    + apply Qle_shift_div_r; [exact P|]. lra.
Qed.

Lemma nd_px_bounds (p q : Pixel) (r : Q) :
  nd_px p q = Some r -> -1 <= r /\ r <= 1.
Proof.
  unfold nd_px. destruct p as [v|], q as [w|]; try discriminate.
  destruct (Qle_bool 0 v) eqn:Hv, (Qle_bool 0 w) eqn:Hw; try discriminate.
  cbn [andb]. intros [= <-].
  apply Qle_bool_iff in Hv. apply Qle_bool_iff in Hw.
  now apply divide_in_unit_ball.
Qed.

(** X13.  On a reflectance composite the four normalized-difference
    indices NBR, NDVI, NDMI and NDBI lie between -1000 and 1000 wherever
    they have a value. *)
Theorem normalized_difference_indices_are_bounded :
  forall img : Image,
    bandNames img = SR_BANDS ->
    exists out,
      addIndices img = Ok out
      /\ forall n x y w,
           In n ["NBR"; "NDVI"; "NDMI"; "NDBI"] ->
           sample out n x y = Some w ->
           -1000 <= w /\ w <= 1000.
Proof.
  intros img Hn.
  destruct (composite_of_names img Hn) as (b1 & b2 & b3 & b4 & b5 & b7 & ->).
  eexists. split; [reflexivity|].
  intros n x y w Hin.
  assert (S : forall p q, px1 (fun v => v * 1000) (nd_px p q) = Some w ->
                          -1000 <= w /\ w <= 1000).
  { intros p q. destruct (nd_px p q) as [r|] eqn:E; [|discriminate].
    cbn. intros [= <-]. apply nd_px_bounds in E. lra. }
  destruct Hin as [<-|[<-|[<-|[<-|[]]]]]; unfold sample; cbn; unfold band1; apply S.
Qed.

Lemma normalized_difference_indices_are_bounded_witness :
  exists out,
    addIndices (composite (flat 420) (flat 610) (flat 900) (flat 3000)
                          (flat 1800) (flat 700)) = Ok out
    /\ forall n x y w,
         In n ["NBR"; "NDVI"; "NDMI"; "NDBI"] ->
         sample out n x y = Some w ->
         -1000 <= w /\ w <= 1000.
Proof.
  apply (normalized_difference_indices_are_bounded
           (composite (flat 420) (flat 610) (flat 900) (flat 3000)
                      (flat 1800) (flat 700))).
  reflexivity.
Defined.

Lemma nd_px_antisymmetric (p q : Pixel) :
  match nd_px p q, nd_px q p with
  | Some a, Some b => a == - b
  | None, None => True
  | _, _ => False
  end.
Proof.
  unfold nd_px. destruct p as [v|], q as [w|]; try exact I.
  destruct (Qle_bool 0 v), (Qle_bool 0 w); cbn [andb]; try exact I.
  unfold divide.
  destruct (Qeq_bool (v + w) 0) eqn:B1, (Qeq_bool (w + v) 0) eqn:B2.
  - reflexivity.
  - apply Qeq_bool_eq in B1. apply Qeq_bool_neq in B2. exfalso. apply B2.
    rewrite <- B1. ring.
  - apply Qeq_bool_eq in B2. apply Qeq_bool_neq in B1. exfalso. apply B1.
    rewrite <- B2. ring.
  - apply Qeq_bool_neq in B1. apply Qeq_bool_neq in B2. field; try split; assumption.
Qed.

(** X14.  NDBI is the negative of NDMI at every pixel of a reflectance
    composite: both are masked or both have a value, and the values are
    opposite. *)
Theorem ndbi_is_minus_ndmi :
  forall img : Image,
    bandNames img = SR_BANDS ->
    exists out,
      addIndices img = Ok out
      /\ forall x y,
           match sample out "NDBI" x y, sample out "NDMI" x y with
           | Some a, Some b => a == - b
           | None, None => True
           | _, _ => False
           end.
Proof.
  intros img Hn.
  destruct (composite_of_names img Hn) as (b1 & b2 & b3 & b4 & b5 & b7 & ->).
  eexists. split; [reflexivity|].
  intros x y. unfold sample. cbn. unfold band1.
  pose proof (nd_px_antisymmetric (b5 x y) (b4 x y)) as A.
  destruct (nd_px (b5 x y) (b4 x y)), (nd_px (b4 x y) (b5 x y)); cbn; try exact A.
  rewrite A. ring.
Qed.

Lemma ndbi_is_minus_ndmi_witness :
  exists out,
    addIndices (composite (flat 420) (flat 610) (flat 900) (flat 3000)
                          (flat 1800) (flat 700)) = Ok out
    /\ forall x y,
         match sample out "NDBI" x y, sample out "NDMI" x y with
         | Some a, Some b => a == - b
         | None, None => True
         | _, _ => False
         end.
Proof.
  apply (ndbi_is_minus_ndmi
           (composite (flat 420) (flat 610) (flat 900) (flat 3000)
                      (flat 1800) (flat 700))).
  reflexivity.
Defined.

(** X15.  Missing data propagates: where the near-infrared band B4 of a
    reflectance composite is masked, all eight index bands are masked. *)
Theorem masked_nir_masks_every_index :
  forall (img : Image) (x y : Z),
    bandNames img = SR_BANDS ->
    sample img "B4" x y = None ->
    exists out,
      addIndices img = Ok out
      /\ forall n, In n INDEX_BANDS -> sample out n x y = None.
Proof.
  intros img x y Hn.
  destruct (composite_of_names img Hn) as (b1 & b2 & b3 & b4 & b5 & b7 & ->).
  unfold sample at 1. cbn. intros H4.
  eexists. split; [reflexivity|].
  intros n Hin. unfold INDEX_BANDS in Hin.
  destruct Hin as [<-|[<-|[<-|[<-|[<-|[<-|[<-|[<-|[]]]]]]]]];
    unfold sample; cbn; unfold band1, band2, nd_px, px2; rewrite H4;
    try reflexivity; destruct (b5 x y); reflexivity.
Qed.

Definition hole : Band := fun x y => if ((x =? 0) && (y =? 0))%Z then None else Some 3000.

Lemma masked_nir_masks_every_index_witness :
  exists out,
    addIndices (composite (flat 420) (flat 610) (flat 900) hole
                          (flat 1800) (flat 700)) = Ok out
    /\ forall n, In n INDEX_BANDS -> sample out n 0 0 = None.
Proof.
  apply (masked_nir_masks_every_index
           (composite (flat 420) (flat 610) (flat 900) hole (flat 1800) (flat 700))
           0%Z 0%Z).
  - reflexivity.
  - reflexivity.
Defined.

(** ** Texture Extractor *)

Lemma sum_repeat (c : Q) (n : nat) :
  sum (repeat c n) == inject_Z (Z.of_nat n) * c.
Proof.
  induction n as [|n IH].
  - cbn. ring.
  - cbn [repeat sum fold_right]. fold (sum (repeat c n)). rewrite IH.
    rewrite Nat2Z.inj_succ. unfold Z.succ. rewrite inject_Z_plus. ring.
Qed.

Lemma mean_repeat (c : Q) (n : nat) : (0 < n)%nat -> mean (repeat c n) == c.
Proof.
  intros Hn. unfold mean. rewrite repeat_length.
  assert (P : ~ inject_Z (Z.of_nat n) == 0).
  { unfold inject_Z, Qeq. cbn [Qnum Qden]. lia. }
  unfold divide. destruct (Qeq_bool (inject_Z (Z.of_nat n)) 0) eqn:B.
  - apply Qeq_bool_eq in B. contradiction.
  - rewrite sum_repeat. field. exact P.
Qed.

Lemma variance_repeat (c : Q) (n : nat) : (0 < n)%nat -> variance (repeat c n) == 0.
Proof.
  intros Hn. unfold variance. rewrite map_repeat, (mean_repeat _ n Hn).
  rewrite (mean_repeat c n Hn). ring.
Qed.

Lemma sqrt_of_zero (q : Q) : q == 0 -> EE.sqrt q == 0.
Proof.
  intros H. unfold EE.sqrt.
  rewrite (Qfloor_comp _ 0) by (rewrite H; ring). reflexivity.
Qed.

Lemma window_of_flat_band_7x7 (b : Band) (c : Q) (x y : Z) :
  (forall i j, b i j = Some c) -> window (Kernel_square 3) b x y = repeat c 49.
Proof.
  intros H. unfold window.
  let k := eval vm_compute in (Kernel_square 3) in
  change (Kernel_square 3) with k.
  unfold flat_map, fst, snd. rewrite !H. reflexivity.
Qed.

Lemma texture_of_flat_band (b : Band) (c : Q) (n : string) (x y : Z) :
  (forall i j, b i j = Some c) ->
  (exists m, sample (reduceNeighborhood Reducer_mean (Kernel_square 3) [(n, b)])
                    n x y = Some m /\ m == c)
  /\ (exists s, sample (reduceNeighborhood Reducer_stdDev (Kernel_square 3) [(n, b)])
                       n x y = Some s /\ s == 0).
Proof.
  intros H. unfold sample, reduceNeighborhood. cbn [map lookup fst snd].
  rewrite String.eqb_refl, H, (window_of_flat_band_7x7 b c x y H).
  split; eexists; (split; [reflexivity|]).
  - apply mean_repeat. lia.
  - apply sqrt_of_zero. apply variance_repeat. lia.
Qed.

(** X16.  Where a reflectance band holds one value [c] at every pixel, its
    first-order texture is flat: the neighbourhood mean is [c] and the
    neighbourhood standard deviation is 0, at every pixel. *)
Theorem texture_of_a_uniform_band_is_flat :
  forall (img : Image) (b : string) (c : Q),
    bandNames img = SR_BANDS ->
    In b SR_BANDS ->
    (forall i j, sample img b i j = Some c) ->
    exists out,
      addFirstOrderTexture img = Ok out
      /\ forall x y,
           (exists m, sample out (b ++ "_mean") x y = Some m /\ m == c)
           /\ (exists s, sample out (b ++ "_stdDev") x y = Some s /\ s == 0).
Proof.
  intros img b c Hn Hb.
  destruct (composite_of_names img Hn) as (b1 & b2 & b3 & b4 & b5 & b7 & ->).
  unfold SR_BANDS in Hb.
  destruct Hb as [<-|[<-|[<-|[<-|[<-|[<-|[]]]]]]];
    unfold sample at 1; cbn [composite lookup String.eqb Ascii.eqb Bool.eqb];
    intros H; (eexists; split; [reflexivity|]); intros x y.
  - exact (texture_of_flat_band b1 c "B1_mean" x y H).
  - exact (texture_of_flat_band b2 c "B2_mean" x y H).
  - exact (texture_of_flat_band b3 c "B3_mean" x y H).
  - exact (texture_of_flat_band b4 c "B4_mean" x y H).
  - exact (texture_of_flat_band b5 c "B5_mean" x y H).
  - exact (texture_of_flat_band b7 c "B7_mean" x y H).
Qed.

Lemma texture_of_a_uniform_band_is_flat_witness :
  exists out,
    addFirstOrderTexture
      (composite (flat 420) (flat 610) (flat 900) (flat 3000) (flat 1800) (flat 700))
    = Ok out
    /\ forall x y,
         (exists m, sample out ("B4" ++ "_mean") x y = Some m /\ m == 3000)
         /\ (exists s, sample out ("B4" ++ "_stdDev") x y = Some s /\ s == 0).
Proof.
  apply (texture_of_a_uniform_band_is_flat
           (composite (flat 420) (flat 610) (flat 900) (flat 3000)
                      (flat 1800) (flat 700)) "B4" 3000).
  - reflexivity.
  - simpl. tauto.
  - reflexivity.
Defined.

(** ** Temporal Trajectory Aggregator *)





(** X19.  Wherever the target year and the prior year both have a value,
    every [*_chg_ra] band is 0, whatever the two values are. *)
Theorem relative_change_band_is_constantly_zero :
  forall imgT imgP : Image,
    bandNames imgT = INDEX_BANDS ->
    bandNames imgP = INDEX_BANDS ->
    exists out,
      chg_ra_target imgT imgP = Ok out
      /\ bandNames out = CHG_RA_NAMES
      /\ forall i b x y t p,
           nth_error INDEX_BANDS i = Some b ->
           sample imgT b x y = Some t ->
           sample imgP b x y = Some p ->
           sample out (b ++ "_chg_ra") x y = Some 0.
Proof.
  intros imgT imgP HT HP. exact (chg_ra_target_is_zero imgT imgP HT HP).
Qed.

Lemma relative_change_band_is_constantly_zero_witness :
  exists out,
    chg_ra_target (index_image 740) (index_image 810) = Ok out
    /\ bandNames out = CHG_RA_NAMES
    /\ forall i b x y t p,
         nth_error INDEX_BANDS i = Some b ->
         sample (index_image 740) b x y = Some t ->
         sample (index_image 810) b x y = Some p ->
         sample out (b ++ "_chg_ra") x y = Some 0.
Proof.
  apply (relative_change_band_is_constantly_zero (index_image 740) (index_image 810)).
  - reflexivity.
  - reflexivity.
Defined.

Definition earlier (a b : Z * Image) : Prop := (fst a <= fst b)%Z.

Lemma insert_by_year_sorted (yi : Z * Image) (c : ImageCollection) :
  Sorted earlier c -> Sorted earlier (insert_by_year yi c).
Proof.
  induction c as [|zj c IH]; intros H; simpl.
  - repeat constructor.
  - destruct (Z.leb_spec (fst yi) (fst zj)) as [L|L].
    + constructor; [exact H|]. constructor. exact L.
    + inversion H as [|? ? Hc Hd]; subst. constructor; [now apply IH|].
      destruct c as [|wk c]; simpl.
      * constructor. unfold earlier. lia.
      * destruct (fst yi <=? fst wk)%Z.
        -- constructor. unfold earlier. lia.
        -- inversion Hd; subst. now constructor.
Qed.

Lemma sort_by_year_sorted (c : ImageCollection) : Sorted earlier (sort_by_year c).
Proof.
  induction c as [|yi c IH]; simpl; [constructor|].
  now apply insert_by_year_sorted.
Qed.

Lemma insert_by_year_perm (yi : Z * Image) (c : ImageCollection) :
  Permutation (yi :: c) (insert_by_year yi c).
Proof.
  induction c as [|zj c IH]; simpl; [reflexivity|].
  destruct (fst yi <=? fst zj)%Z; [reflexivity|].
  rewrite perm_swap. now apply perm_skip.
Qed.

Lemma sort_by_year_perm (c : ImageCollection) : Permutation c (sort_by_year c).
Proof.
  induction c as [|yi c IH]; simpl; [reflexivity|].
  rewrite <- insert_by_year_perm. now apply perm_skip.
Qed.

Lemma years_sorted (c : ImageCollection) :
  Sorted earlier c -> Sorted Z.le (map fst c).
Proof.
  induction 1 as [|yi c Hc IH Hd]; simpl; constructor; [exact IH|].
  destruct Hd; simpl; constructor. assumption.
Qed.

Lemma years_of_addYearBand (c : ImageCollection) :
  map fst (map addYearBand c) = map fst c.
Proof. rewrite map_map. reflexivity. Qed.

Lemma years_of_filter (p : Z -> bool) (c : ImageCollection) :
  map fst (filter (fun yi => p (fst yi)) c) = filter p (map fst c).
Proof.
  induction c as [|yi c IH]; simpl; [reflexivity|].
  destruct (p (fst yi)); simpl; now rewrite IH.
Qed.

(** X20.  The history collections hold exactly the years they are meant
    to, in ascending order: all years before the target year for the
    long-term history, the years [T-3 .. T-1] for the three-year window;
    a year the series has twice is kept twice. *)
Theorem history_collections_hold_the_earlier_years_in_order :
  forall (tsCollection : ImageCollection) (targetYear : Z),
    Sorted Z.le (map fst (histCollection tsCollection targetYear))
    /\ Permutation (map fst (histCollection tsCollection targetYear))
                   (filter (fun y => (y <? targetYear)%Z) (map fst tsCollection))
    /\ Sorted Z.le (map fst (histCollection_3y tsCollection targetYear))
    /\ Permutation (map fst (histCollection_3y tsCollection targetYear))
                   (filter (fun y => (targetYear - 3 <=? y)%Z && (y <=? targetYear - 1)%Z)
                           (map fst tsCollection)).
Proof.
  intros ts T. unfold histCollection, histCollection_3y.
  rewrite !years_of_addYearBand.
  rewrite <- (years_of_filter (fun y => (y <? T)%Z)).
  rewrite <- (years_of_filter (fun y => (T - 3 <=? y)%Z && (y <=? T - 1)%Z)).
  repeat split.
  - apply years_sorted, sort_by_year_sorted.
  - apply Permutation_map. symmetry. apply sort_by_year_perm.
  - apply years_sorted, sort_by_year_sorted.
  - apply Permutation_map. symmetry. apply sort_by_year_perm.
Qed.

(** *** What the regression fits *)

Lemma mapM_pointwise {A B : Type} (f : A -> result B) (g : A -> B) (l : list A) :
  (forall a, f a = Ok (g a)) -> mapM f l = Ok (map g l).
Proof.
  intros H. induction l as [|a l IH]; simpl; [reflexivity|].
  rewrite H, IH. reflexivity.
Qed.

Lemma mapM_of_map {A B C : Type} (f : B -> result C) (h : A -> B) (l : list A) :
  mapM f (map h l) = mapM (fun a => f (h a)) l.
Proof.
  induction l as [|a l IH]; simpl; [reflexivity|]. now rewrite IH.
Qed.

(** a series whose every index band is [k] times the year *)
Definition proportional_series (k : Q) (years : list Z) : ImageCollection :=
  map (fun yr => (yr, index_image (k * inject_Z yr))) years.

Definition regression_row (k : Q) (yr : Z) : list Q :=
  inject_Z yr :: repeat (k * inject_Z yr) 8.

Lemma observations_of_proportional_series (k : Q) (years : list Z) (x y : Z) :
  exists selected,
    mapM (fun yi => select ("year" :: INDEX_BANDS) (snd yi))
         (map addYearBand (proportional_series k years)) = Ok selected
    /\ observations selected x y = map (regression_row k) years.
Proof.
  unfold proportional_series. rewrite map_map.
  eexists. split.
  - rewrite mapM_of_map.
    apply mapM_pointwise
      with (g := fun yr =>
                   ("year", fun (_ _ : Z) => Some (inject_Z yr))
                   :: index_image (k * inject_Z yr)).
    intros yr. reflexivity.
  -  induction years as [|yr years IH]; [reflexivity|].
    cbn [map observations]. rewrite IH. reflexivity.
Qed.

Lemma sum_scaled (k : Q) (f : Z -> Q) (l : list Z) :
  sum (map (fun a => f a * (k * f a)) l) == k * sum (map (fun a => f a * f a) l).
Proof.
  induction l as [|a l IH]; cbn [map sum fold_right].
  - ring.
  - fold (sum (map (fun a => f a * (k * f a)) l)).
    fold (sum (map (fun a => f a * f a) l)). rewrite IH. ring.
Qed.

Lemma sum_of_squares_positive (l : list Z) :
  l <> [] -> Forall (fun a => a <> 0%Z) l ->
  0 < sum (map (fun a => inject_Z a * inject_Z a) l).
Proof.
  intros Hl H.
  assert (N : forall l', 0 <= sum (map (fun a => inject_Z a * inject_Z a) l')).
  { induction l' as [|a l' IH]; cbn [map sum fold_right]; [discriminate|].
    fold (sum (map (fun a => inject_Z a * inject_Z a) l')).
    assert (0 <= inject_Z a * inject_Z a).
    { unfold inject_Z, Qle, Qmult. cbn [Qnum Qden]. nia. }
    lra. }
  destruct l as [|a l]; [congruence|]. inversion H as [|? ? Ha _]; subst.
  cbn [map sum fold_right]. fold (sum (map (fun a => inject_Z a * inject_Z a) l)).
  assert (0 < inject_Z a * inject_Z a).
  { unfold inject_Z, Qlt, Qmult. cbn [Qnum Qden]. nia. }
  specialize (N l). lra.
Qed.

(** X21.  The regression behind the trend features fits a line through
    the origin: for a series of two or more years whose every index band
    is [k] times the year, its coefficient for each of the eight bands is
    [k]. *)
Theorem regression_recovers_a_proportionality_constant :
  forall (k : Q) (years : list Z) (x y : Z),
    (2 <= List.length years)%nat ->
    Forall (fun yr => yr <> 0%Z) years ->
    exists row,
      regression (map addYearBand (proportional_series k years)) x y
      = Ok (Some [row])
      /\ List.length row = 8%nat
      /\ Forall (fun b => b == k) row.
Proof.
  intros k years x y Hlen Hnz.
  assert (Hne : years <> []) by (intros Z0; rewrite Z0 in Hlen; simpl in Hlen; lia).
  destruct (observations_of_proportional_series k years x y) as (selected & E & O).
  unfold regression. rewrite E. cbn [bind]. rewrite O.
  unfold linearRegression1. rewrite length_map.
  destruct (Nat.leb_spec (List.length years) 1) as [L|_]; [lia|].
  eexists. split; [reflexivity|]. split; [reflexivity|].
  assert (P : 0 < sum (map (fun a => inject_Z a * inject_Z a) years))
    by (now apply sum_of_squares_positive).
  assert (C : forall j, (j < 8)%nat ->
              divide
                (sum (map (fun row => hd 0 row * nth (S j) row 0)
                          (map (regression_row k) years)))
                (sum (map (fun v => v * v)
                          (map (fun row => hd 0 row) (map (regression_row k) years))))
              == k).
  { intros j Hj. rewrite !map_map.
    assert (N : forall yr', nth (S j) (regression_row k yr') 0 = k * inject_Z yr').
    { intros yr'. unfold regression_row. cbn [nth].
      do 8 (destruct j as [|j]; [reflexivity|]). lia. }
    rewrite (map_ext _ (fun a => inject_Z a * (k * inject_Z a)))
      by (intros a; rewrite N; reflexivity).
    cbn [regression_row hd].
    unfold divide.
    destruct (Qeq_bool (sum (map (fun a => inject_Z a * inject_Z a) years)) 0) eqn:B.
    - apply Qeq_bool_eq in B. rewrite B in P. discriminate.
    - rewrite (sum_scaled k inject_Z years). field.
      intros Z0. rewrite Z0 in P. discriminate. }
  cbn [List.length INDEX_BANDS seq map].
  repeat constructor; apply C; lia.
Qed.

Lemma regression_recovers_a_proportionality_constant_witness :
  exists row,
    regression (map addYearBand (proportional_series (1 # 20) [2000; 2001; 2002]%Z))
               0 0
    = Ok (Some [row])
    /\ List.length row = 8%nat
    /\ Forall (fun b => b == (1 # 20)) row.
Proof.
  apply (regression_recovers_a_proportionality_constant
           (1 # 20) [2000; 2001; 2002]%Z 0%Z 0%Z).
  - simpl. lia.
  - repeat constructor; discriminate.
Defined.

(** X22.  The annual change feature is the absolute difference of the two
    years, whichever way round they are given: a gain and a loss of the
    same size give the same value. *)
Theorem annual_change_is_the_absolute_difference :
  forall imgT imgP : Image,
    bandNames imgT = INDEX_BANDS ->
    bandNames imgP = INDEX_BANDS ->
    exists forward backward,
      an_cha imgT imgP = Ok forward
      /\ an_cha imgP imgT = Ok backward
      /\ bandNames forward = AN_CHA_NAMES
      /\ forall b x y t p,
           In b INDEX_BANDS ->
           sample imgT b x y = Some t ->
           sample imgP b x y = Some p ->
           sample forward (b ++ "_an_cha") x y = Some (Qabs (t - p))
           /\ sample backward (b ++ "_an_cha") x y = Some (Qabs (t - p)).
Proof.
  intros imgT imgP HT HP.
  destruct (index_image_of_names imgT HT) as (a1 & a2 & a3 & a4 & a5 & a6 & a7 & a8 & ->).
  destruct (index_image_of_names imgP HP) as (p1 & p2 & p3 & p4 & p5 & p6 & p7 & p8 & ->).
  do 2 eexists. split; [reflexivity|]. split; [reflexivity|]. split; [reflexivity|].
  intros b x y t p Hb. unfold INDEX_BANDS in Hb.
  repeat (destruct Hb as [<-|Hb];
          [unfold sample;
           cbn [AN_CHA_NAMES INDEX_BANDS map combine fst snd lookup append
                String.eqb Ascii.eqb Bool.eqb];
           unfold band1, band2; intros -> ->; cbn [px1 px2];
           split; [reflexivity|]; f_equal; apply Qabs_Qminus|]).
  destruct Hb.
Qed.

Lemma annual_change_is_the_absolute_difference_witness :
  exists forward backward,
    an_cha (index_image 640) (index_image 810) = Ok forward
    /\ an_cha (index_image 810) (index_image 640) = Ok backward
    /\ bandNames forward = AN_CHA_NAMES
    /\ forall b x y t p,
         In b INDEX_BANDS ->
         sample (index_image 640) b x y = Some t ->
         sample (index_image 810) b x y = Some p ->
         sample forward (b ++ "_an_cha") x y = Some (Qabs (t - p))
         /\ sample backward (b ++ "_an_cha") x y = Some (Qabs (t - p)).
Proof.
  apply (annual_change_is_the_absolute_difference (index_image 640) (index_image 810)).
  - reflexivity.
  - reflexivity.
Defined.

(** ** Rolling statistics of a series that does not change *)

Lemma lookup_app (n : string) (a b : Image) :
  lookup n (a ++ b)%list
  = match lookup n a with
    | Some v => Some v
    | None => lookup n b
    end.
Proof.
  induction a as [|[m v] a IH]; simpl; [now destruct (lookup n b)|].
  destruct (String.eqb n m); [reflexivity|exact IH].
Qed.

Lemma sample_addYearBand (yi : Z * Image) (b : string) (x y : Z) (c : Q) :
  sample (snd yi) b x y = Some c -> sample (snd (addYearBand yi)) b x y = Some c.
Proof.
  unfold sample, addYearBand, addBands. cbn [snd fold_left]. unfold addBand.
  rewrite lookup_app.
  destruct (lookup b (snd yi)); [trivial|discriminate].
Qed.

Lemma stack_of_constant (images : list Image) (b : string) (x y : Z) (c : Q) :
  (forall img, In img images -> sample img b x y = Some c) ->
  stack images b x y = repeat c (List.length images).
Proof.
  induction images as [|img images IH]; intros H; [reflexivity|].
  cbn [stack flat_map List.length repeat]. rewrite (H img) by (now left).
  cbn [app]. f_equal. apply IH. intros i Hi. apply H. now right.
Qed.

Lemma minimum_of_constant (c : Q) (n : nat) : minimum (repeat c (S n)) = Some c.
Proof.
  cbn [repeat minimum]. f_equal. induction n as [|n IH]; [reflexivity|].
  cbn [repeat fold_left].
  replace (Qmin c c) with c; [exact IH|].
  unfold Qmin, GenericMinMax.gmin. destruct (Qcompare c c); reflexivity.
Qed.

Lemma lookup_reduceCollection (reduce : list Q -> Pixel) (c : ImageCollection)
    (b : string) :
  lookup b (reduceCollection reduce (fun n => n) c)
  = match c with
    | [] => None
    | (_, first) :: _ =>
        match lookup b first with
        | Some _ => Some (fun x y => reduce (stack (map snd c) b x y))
        | None => None
        end
    end.
Proof.
  destruct c as [|[y0 first] rest]; [reflexivity|].
  unfold reduceCollection.
  generalize (map snd ((y0, first) :: rest)). intros imgs.
  induction first as [|[m v] first IH]; [reflexivity|].
  cbn [map lookup fst snd].
  destruct (String.eqb_spec b m) as [->|]; [reflexivity|exact IH].
Qed.

Lemma reduceCollection_of_index_bands (reduce : list Q -> Pixel)
    (name : string -> string) (y0 : Z) (first : Image) (rest : ImageCollection) :
  bandNames first = INDEX_BANDS ->
  reduceCollection reduce name ((y0, first) :: rest)
  = map (fun n => (name n,
                   fun x y => reduce (stack (map snd ((y0, first) :: rest)) n x y)))
        INDEX_BANDS.
Proof.
  intros H. unfold reduceCollection.
  generalize (map snd ((y0, first) :: rest)). intros imgs.
  destruct (index_image_of_names first H) as (a1 & a2 & a3 & a4 & a5 & a6 & a7 & a8 & ->).
  reflexivity.
Qed.

Lemma select_all (names : list string) (img : Image) (g : string -> Band) :
  (forall n, In n names -> lookup n img = Some (g n)) ->
  select names img = Ok (map (fun n => (n, g n)) names).
Proof.
  induction names as [|n names IH]; intros H; [reflexivity|].
  cbn [select map]. rewrite (H n) by (now left).
  rewrite IH by (intros m Hm; apply H; now right). reflexivity.
Qed.

Lemma rename_selected (names : list string) (g : string -> Band) :
  List.length names = 8%nat ->
  rename names (map (fun n => (n, g n)) INDEX_BANDS)
  = Ok (combine names (map g INDEX_BANDS)).
Proof.
  intros H. unfold rename. rewrite H. reflexivity.
Qed.

Lemma sample_rol_3y (g : string -> Band) (b : string) (x y : Z) :
  In b INDEX_BANDS ->
  sample (combine ROL_3Y_NAMES (map g INDEX_BANDS)) (b ++ "_rol_3y") x y = g b x y.
Proof.
  intros H. unfold INDEX_BANDS in H.
  repeat (destruct H as [<-|H]; [reflexivity|]). destruct H.
Qed.

Lemma sample_rol_5y (g : string -> Band) (b : string) (x y : Z) :
  In b INDEX_BANDS ->
  sample (combine ROL_5Y_NAMES (map g INDEX_BANDS)) (b ++ "_rol_5y") x y = g b x y.
Proof.
  intros H. unfold INDEX_BANDS in H.
  repeat (destruct H as [<-|H]; [reflexivity|]). destruct H.
Qed.

Lemma sample_vola_5y (g : string -> Band) (b : string) (x y : Z) :
  In b INDEX_BANDS ->
  sample (combine VOLA_5Y_NAMES (map g INDEX_BANDS)) (b ++ "_vola_5y") x y = g b x y.
Proof.
  intros H. unfold INDEX_BANDS in H.
  repeat (destruct H as [<-|H]; [reflexivity|]). destruct H.
Qed.

Lemma In_sort_by_year (c : ImageCollection) (yi : Z * Image) :
  In yi (sort_by_year c) <-> In yi c.
Proof.
  split; apply Permutation_in; [symmetry|]; apply sort_by_year_perm.
Qed.

Lemma lookup_of_sample (img : Image) (b : string) (x y : Z) (c : Q) :
  sample img b x y = Some c -> exists v, lookup b img = Some v.
Proof.
  unfold sample. destruct (lookup b img) as [v|]; [eauto|discriminate].
Qed.

Lemma reduceValues_mean_repeat (c : Q) (n : nat) :
  (0 < n)%nat -> exists m, reduceValues Reducer_mean (repeat c n) = Some m /\ m == c.
Proof.
  intros H. exists (mean (repeat c n)). split; [|now apply mean_repeat].
  destruct n; [lia|reflexivity].
Qed.

Lemma reduceValues_stdDev_repeat (c : Q) (n : nat) :
  (0 < n)%nat -> exists s, reduceValues Reducer_stdDev (repeat c n) = Some s /\ s == 0.
Proof.
  intros H. exists (EE.sqrt (variance (repeat c n))).
  split; [|now apply sqrt_of_zero, variance_repeat].
  destruct n; [lia|reflexivity].
Qed.

(** the values a reducer sees at a pixel where no image of the collection
    differs from the others *)
Lemma stack_of_unchanged_pixel (h : ImageCollection) (b : string) (x y : Z) (c : Q) :
  h <> [] ->
  (forall zi, In zi h -> sample (snd zi) b x y = Some c) ->
  (exists n, stack (map snd h) b x y = repeat c (S n))
  /\ forall reduce,
       lookup b (reduceCollection reduce (fun n => n) h)
       = Some (fun x y => reduce (stack (map snd h) b x y)).
Proof.
  intros N H. split.
  - destruct h as [|zi h]; [congruence|]. exists (List.length h).
    rewrite (stack_of_constant (map snd (zi :: h)) b x y c).
    + rewrite length_map. reflexivity.
    + intros img Hi. apply in_map_iff in Hi as (wi & <- & Hw). now apply H.
  - intros reduce. rewrite lookup_reduceCollection.
    destruct h as [|[y0 first] rest]; [congruence|].
    destruct (lookup_of_sample first b x y c (H (y0, first) (or_introl eq_refl)))
      as (v & ->).
    reflexivity.
Qed.

(** X23.  A pixel whose index values did not change over the five years
    before the target year: its three-year rolling mean and five-year
    minimum are that value, and its five-year volatility is 0. *)
Theorem rolling_statistics_of_an_unchanged_pixel :
  forall (tsCollection : ImageCollection) (targetYear x y : Z) (c : Q),
    (forall yi, In yi tsCollection -> bandNames (snd yi) = INDEX_BANDS) ->
    (forall yi b,
        In yi tsCollection ->
        (targetYear - 5 <= fst yi <= targetYear - 1)%Z ->
        In b INDEX_BANDS ->
        sample (snd yi) b x y = Some c) ->
    (exists yi, In yi tsCollection /\ (targetYear - 3 <= fst yi <= targetYear - 1)%Z) ->
    exists r3 r5 v5,
      rol_3y tsCollection targetYear = Ok r3
      /\ rol_5y tsCollection targetYear = Ok r5
      /\ vola_5y tsCollection targetYear = Ok v5
      /\ forall b,
           In b INDEX_BANDS ->
           (exists m, sample r3 (b ++ "_rol_3y") x y = Some m /\ m == c)
           /\ sample r5 (b ++ "_rol_5y") x y = Some c
           /\ (exists s, sample v5 (b ++ "_vola_5y") x y = Some s /\ s == 0).
Proof.
  intros ts T x y c Hn Hc (y1 & In1 & W1).
  assert (M3 : forall b zi, In b INDEX_BANDS -> In zi (histCollection_3y ts T) ->
                            sample (snd zi) b x y = Some c).
  { intros b zi Hb Hz. unfold histCollection_3y in Hz.
    apply in_map_iff in Hz as (yi & <- & Hy).
    apply (proj1 (In_sort_by_year _ _)) in Hy. apply filter_In in Hy as [Hy Hp].
    apply sample_addYearBand. apply Hc; [exact Hy|lia|exact Hb]. }
  assert (N3 : histCollection_3y ts T <> []).
  { intros E. assert (I3 : In (addYearBand y1) (histCollection_3y ts T)).
    { apply in_map, (proj2 (In_sort_by_year _ _)), filter_In. split; [exact In1|lia]. }
    rewrite E in I3. destruct I3. }
  assert (M5 : forall b zi, In b INDEX_BANDS -> In zi (histCollection_5y ts T) ->
                            sample (snd zi) b x y = Some c).
  { intros b zi Hb Hz. unfold histCollection_5y in Hz.
    apply (proj1 (In_sort_by_year _ _)) in Hz. apply filter_In in Hz as [Hz Hp].
    apply Hc; [exact Hz|lia|exact Hb]. }
  assert (B5 : forall zi, In zi (histCollection_5y ts T) -> bandNames (snd zi) = INDEX_BANDS).
  { intros zi Hz. unfold histCollection_5y in Hz.
    apply (proj1 (In_sort_by_year _ _)) in Hz. apply filter_In in Hz as [Hz _]. now apply Hn. }
  assert (N5 : histCollection_5y ts T <> []).
  { intros E. assert (I5 : In y1 (histCollection_5y ts T)).
    { apply (proj2 (In_sort_by_year _ _)), filter_In. split; [exact In1|lia]. }
    rewrite E in I5. destruct I5. }
  unfold rol_3y, rol_5y, vola_5y, collection_mean, collection_min, collection_stdDev.
  rewrite (select_all INDEX_BANDS _
             (fun n x y => reduceValues Reducer_mean
                             (stack (map snd (histCollection_3y ts T)) n x y)))
    by (intros n Hb; apply (stack_of_unchanged_pixel _ n x y c N3 (fun zi => M3 n zi Hb))).
  rewrite (select_all INDEX_BANDS _
             (fun n x y => minimum (stack (map snd (histCollection_5y ts T)) n x y)))
    by (intros n Hb; apply (stack_of_unchanged_pixel _ n x y c N5 (fun zi => M5 n zi Hb))).
  cbn [bind]. rewrite !rename_selected by reflexivity.
  revert M5 B5 N5. generalize (histCollection_5y ts T) as h5. intros h5 M5 B5 N5.
  destruct h5 as [|[y0 first] rest]; [congruence|].
  rewrite (reduceCollection_of_index_bands _ _ y0 first rest
             (B5 (y0, first) (or_introl eq_refl))).
  change (rename VOLA_5Y_NAMES _)
    with (Ok (combine VOLA_5Y_NAMES
                (map (fun n x y => reduceValues Reducer_stdDev
                                     (stack (map snd ((y0, first) :: rest)) n x y))
                     INDEX_BANDS))).
  do 3 eexists. split; [reflexivity|]. split; [reflexivity|]. split; [reflexivity|].
  intros b Hb.
  rewrite sample_rol_3y, sample_rol_5y, sample_vola_5y by exact Hb.
  destruct (stack_of_unchanged_pixel _ b x y c N3 (fun zi => M3 b zi Hb)) as [[n3 ->] _].
  destruct (stack_of_unchanged_pixel _ b x y c N5 (fun zi => M5 b zi Hb)) as [[n5 ->] _].
  split; [apply reduceValues_mean_repeat; lia|].
  split; [apply minimum_of_constant|].
  apply reduceValues_stdDev_repeat; lia.
Qed.

Lemma rolling_statistics_of_an_unchanged_pixel_witness :
  exists r3 r5 v5,
    rol_3y [(2001%Z, index_image 300); (2003%Z, index_image 300);
            (2004%Z, index_image 250)] 2004 = Ok r3
    /\ rol_5y [(2001%Z, index_image 300); (2003%Z, index_image 300);
               (2004%Z, index_image 250)] 2004 = Ok r5
    /\ vola_5y [(2001%Z, index_image 300); (2003%Z, index_image 300);
                (2004%Z, index_image 250)] 2004 = Ok v5
    /\ forall b,
         In b INDEX_BANDS ->
         (exists m, sample r3 (b ++ "_rol_3y") 6 9 = Some m /\ m == 300)
         /\ sample r5 (b ++ "_rol_5y") 6 9 = Some 300
         /\ (exists s, sample v5 (b ++ "_vola_5y") 6 9 = Some s /\ s == 0).
Proof.
  apply (rolling_statistics_of_an_unchanged_pixel
           [(2001%Z, index_image 300); (2003%Z, index_image 300);
            (2004%Z, index_image 250)] 2004%Z 6%Z 9%Z 300).
  - intros yi [<-|[<-|[<-|[]]]]; reflexivity.
  - intros yi b [<-|[<-|[<-|[]]]] W Hb; cbn [fst] in W; try lia;
      unfold INDEX_BANDS in Hb;
      repeat (destruct Hb as [<-|Hb]; [reflexivity|]); destruct Hb.
  - exists (2003%Z, index_image 300). split; [simpl; tauto|simpl; lia].
Defined.

(** ** Predictor and Post-Processor *)

Lemma lookup_focal_mode_pass (tie : Q -> Q -> bool) (radius : Z) (img : Image)
    (n : string) :
  lookup n (focal_mode_pass tie radius img)
  = match lookup n img with
    | Some b => Some (fun x y => mode tie (window (Kernel_square radius) b x y))
    | None => None
    end.
Proof.
  induction img as [|[m b] img IH]; [reflexivity|].
  unfold focal_mode_pass in *. cbn [map lookup fst snd].
  destruct (String.eqb n m); [reflexivity|exact IH].
Qed.

Lemma fold_keeps_the_majority (tie : Q -> Q -> bool) (vs rest : list Q) (c : Q) :
  Forall (fun w => (if better tie vs w c then w else c) = c) rest ->
  fold_left (fun best w => if better tie vs w best then w else best) rest c = c.
Proof.
  induction 1 as [|w rest Hw _ IH]; simpl; [reflexivity|].
  rewrite Hw. exact IH.
Qed.

Lemma filter_step {A : Type} (p : A -> bool) (a : A) (l : list A) :
  filter p (a :: l) = if p a then a :: filter p l else filter p l.
Proof. reflexivity. Qed.

Lemma mode_of_eight_against_one (tie : Q -> Q -> bool) (c d : Q) :
  ~ c == d -> mode tie [c; c; c; c; d; c; c; c; c] = Some c.
Proof.
  intros H.
  assert (Hcc : Qeq_bool c c = true) by apply Qeq_bool_refl.
  assert (Hdd : Qeq_bool d d = true) by apply Qeq_bool_refl.
  assert (Hcd : Qeq_bool c d = false).
  { destruct (Qeq_bool c d) eqn:B; [|reflexivity]. apply Qeq_bool_eq in B. contradiction. }
  assert (Hdc : Qeq_bool d c = false).
  { destruct (Qeq_bool d c) eqn:B; [|reflexivity]. apply Qeq_bool_eq in B.
    symmetry in B. contradiction. }
  set (vs := [c; c; c; c; d; c; c; c; c]).
  assert (Oc : occurrences c vs = 8%nat).
  { unfold occurrences, vs. rewrite !filter_step, Hcc, Hcd. reflexivity. }
  assert (Od : occurrences d vs = 1%nat).
  { unfold occurrences, vs. rewrite !filter_step, Hdd, Hdc. reflexivity. }
  assert (Sc : (if better tie vs c c then c else c) = c)
    by (destruct (better tie vs c c); reflexivity).
  assert (Sd : (if better tie vs d c then d else c) = c).
  { unfold better. rewrite Oc, Od. reflexivity. }
  unfold mode. fold vs. unfold vs at 1. f_equal.
  apply fold_keeps_the_majority. repeat constructor; assumption.
Qed.

(** X24.  The smoothing pass removes an isolated pixel: a pixel labelled
    [d] whose eight neighbours all carry another label [c] comes out
    labelled [c], however the mode reducer settles ties. *)
Theorem smoothing_removes_an_isolated_pixel :
  forall (tie : Q -> Q -> bool) (classified : Image) (n : string)
         (x y : Z) (c d : Q),
    ~ c == d ->
    sample classified n x y = Some d ->
    (forall dx dy,
        (-1 <= dx <= 1)%Z -> (-1 <= dy <= 1)%Z -> (dx <> 0 \/ dy <> 0)%Z ->
        sample classified n (x + dx) (y + dy) = Some c) ->
    sample (smoothed tie classified) n x y = Some c.
Proof.
  intros tie img n x y c d Hcd. unfold smoothed, sample. cbn [focal_mode].
  rewrite lookup_focal_mode_pass.
  destruct (lookup n img) as [b|]; [|discriminate].
  intros Hd Hc. unfold window.
  let k := eval vm_compute in (Kernel_square 1) in
  change (Kernel_square 1) with k.
  unfold flat_map, fst, snd.
  rewrite (Hc (-1) (-1))%Z, (Hc (-1) 0)%Z, (Hc (-1) 1)%Z, (Hc 0 (-1))%Z,
          (Hc 0 1)%Z, (Hc 1 (-1))%Z, (Hc 1 0)%Z, (Hc 1 1)%Z by lia.
  rewrite !Z.add_0_r, Hd.
  change (mode tie [c; c; c; c; d; c; c; c; c] = Some c).
  now apply mode_of_eight_against_one.
Qed.

Definition speck : Band :=
  fun x y => if ((x =? 4) && (y =? 4))%Z then Some 3 else Some 0.

Lemma smoothing_removes_an_isolated_pixel_witness :
  sample (smoothed (fun v w => Qle_bool v w) [("prediction", speck)])
         "prediction" 4 4 = Some 0.
Proof.
  apply (smoothing_removes_an_isolated_pixel
           (fun v w => Qle_bool v w) [("prediction", speck)] "prediction"
           4%Z 4%Z 0 3).
  - discriminate.
  - reflexivity.
  - intros dx dy Hx Hy Hxy. unfold sample, speck. cbn [lookup String.eqb Ascii.eqb Bool.eqb].
    destruct (Z.eqb_spec (4 + dx) 4), (Z.eqb_spec (4 + dy) 4);
      cbn [andb]; try reflexivity. lia.
Defined.

Lemma fold_picks_an_element {A : Type} (p : A -> A -> bool) (rest : list A) (a : A) :
  In (fold_left (fun best w => if p w best then w else best) rest a) (a :: rest).
Proof.
  revert a. induction rest as [|w rest IH]; intros a; [now left|].
  cbn [fold_left]. destruct (IH (if p w a then w else a)) as [H|H].
  - rewrite <- H. destruct (p w a); [right; now left|now left].
  - right. now right.
Qed.

Lemma mode_of_values (tie : Q -> Q -> bool) (vs : list Q) :
  vs <> [] -> exists w, mode tie vs = Some w /\ In w vs.
Proof.
  destruct vs as [|v rest]; [congruence|]. intros _.
  eexists. split; [reflexivity|].
  apply (fold_picks_an_element (better tie (v :: rest))).
Qed.

Lemma window_values (k : Kernel) (b : Band) (x y : Z) (w : Q) :
  In w (window k b x y)
  <-> exists d, In d k /\ b (x + fst d)%Z (y + snd d)%Z = Some w.
Proof.
  unfold window. rewrite in_flat_map. split; intros (d & Hd & H); exists d; split;
    try exact Hd.
  - destruct (b (x + fst d)%Z (y + snd d)%Z) as [v|]; [|destruct H].
    destruct H as [<-|[]]. reflexivity.
  - rewrite H. now left.
Qed.

Lemma Kernel_square_1_offsets (dx dy : Z) :
  In (dx, dy) (Kernel_square 1) <-> (-1 <= dx <= 1)%Z /\ (-1 <= dy <= 1)%Z.
Proof.
  let k := eval vm_compute in (Kernel_square 1) in
  change (Kernel_square 1) with k.
  split.
  - cbn [In]. intros H.
    repeat (destruct H as [H|H]; [injection H as <- <-; lia|]). destruct H.
  - intros [Hx Hy].
    assert (Cx : dx = (-1)%Z \/ dx = 0%Z \/ dx = 1%Z) by lia.
    assert (Cy : dy = (-1)%Z \/ dy = 0%Z \/ dy = 1%Z) by lia.
    destruct Cx as [->|[->| ->]], Cy as [->|[->| ->]]; cbn [In]; tauto.
Qed.

Lemma sample_classified (prediction lc : Band) :
  exists out,
    classified prediction lc = Ok out
    /\ bandNames out = ["prediction"]
    /\ forall i j,
         sample out "prediction" i j
         = match prediction i j, lc i j with
           | Some v, Some k => if Qle_bool 50 k && Qle_bool k 92 then Some v else None
           | _, _ => None
           end.
Proof.
  eexists. split; [reflexivity|]. split; [reflexivity|].
  intros i j. unfold sample. cbn [map lookup fst snd String.eqb Ascii.eqb Bool.eqb].
  unfold mask_px. destruct (prediction i j) as [v|], (lc i j) as [k|]; try reflexivity.
  destruct (Qle_bool 50 k && Qle_bool k 92); reflexivity.
Qed.

(** X25.  The classification is masked outside the forest mask, but the
    smoothed map is not: a pixel that is not forest (or has no land-cover
    value) and has a classified forest pixel among its eight neighbours
    comes out of the smoothing with a label, taken from a classified pixel
    of its 3 x 3 window. *)
Theorem smoothing_labels_pixels_outside_the_forest_mask :
  forall (tie : Q -> Q -> bool) (prediction lc : Band) (x y dx dy : Z) (k v : Q),
    (forall c, lc x y = Some c -> c < 50 \/ 92 < c) ->
    (-1 <= dx <= 1)%Z ->
    (-1 <= dy <= 1)%Z ->
    lc (x + dx)%Z (y + dy)%Z = Some k ->
    50 <= k ->
    k <= 92 ->
    prediction (x + dx)%Z (y + dy)%Z = Some v ->
    exists out w,
      classified prediction lc = Ok out
      /\ sample out "prediction" x y = None
      /\ sample (smoothed tie out) "prediction" x y = Some w
      /\ exists ex ey,
           (-1 <= ex <= 1)%Z /\ (-1 <= ey <= 1)%Z
           /\ sample out "prediction" (x + ex) (y + ey) = Some w.
Proof.
  intros tie prediction lc x y dx dy k v Hout Hdx Hdy Hk L U Hv.
  destruct (sample_classified prediction lc) as (out & E & Hn & Hs).
  exists out.
  assert (B : exists b, out = [("prediction", b)]).
  { destruct out as [|[n b] [|? ?]]; try discriminate.
    injection Hn as ->. now exists b. }
  destruct B as (b & ->).
  assert (Sb : forall i j, b i j = sample [("prediction", b)] "prediction" i j)
    by reflexivity.
  assert (V : b (x + dx)%Z (y + dy)%Z = Some v).
  { rewrite Sb, Hs, Hv, Hk.
    apply Qle_bool_iff in L. apply Qle_bool_iff in U. now rewrite L, U. }
  assert (W : window (Kernel_square 1) b x y <> []).
  { intros Z0.
    assert (I0 : In v (window (Kernel_square 1) b x y)).
    { apply window_values. exists (dx, dy). split; [|exact V].
      now apply Kernel_square_1_offsets. }
    rewrite Z0 in I0. destruct I0. }
  destruct (mode_of_values tie _ W) as (w & M & Iw).
  exists w. split; [exact E|]. split.
  - rewrite Hs. destruct (prediction x y) as [p|]; [|reflexivity].
    destruct (lc x y) as [c|] eqn:C; [|reflexivity].
    destruct (Hout c eq_refl) as [H|H].
    + destruct (Qle_bool 50 c) eqn:Q; [|reflexivity].
      apply Qle_bool_iff in Q. exfalso. apply (Qlt_not_le _ _ H Q).
    + destruct (Qle_bool c 92) eqn:Q; [|now rewrite andb_false_r].
      apply Qle_bool_iff in Q. exfalso. apply (Qlt_not_le _ _ H Q).
  - split; [exact M|].
    apply window_values in Iw. destruct Iw as ([ex ey] & Hd & Hw).
    apply Kernel_square_1_offsets in Hd. exists ex, ey.
    split; [tauto|]. split; [tauto|]. rewrite <- Sb. exact Hw.
Qed.

(** a raster of land-cover codes: forest (code 52) east of the line
    [x = 10], cropland (code 10) west of it *)
Definition forest_edge : Band :=
  fun x _ => if (10 <=? x)%Z then Some 52 else Some 10.

Lemma smoothing_labels_pixels_outside_the_forest_mask_witness :
  exists out w,
    classified (fun _ _ => Some 1) forest_edge = Ok out
    /\ sample out "prediction" 9 0 = None
    /\ sample (smoothed (fun v w => Qle_bool v w) out) "prediction" 9 0 = Some w
    /\ exists ex ey,
         (-1 <= ex <= 1)%Z /\ (-1 <= ey <= 1)%Z
         /\ sample out "prediction" (9 + ex) (0 + ey) = Some w.
Proof.
  apply (smoothing_labels_pixels_outside_the_forest_mask
           (fun v w => Qle_bool v w) (fun _ _ => Some 1) forest_edge
           9%Z 0%Z 1%Z 0%Z 52 1).
  - intros c H. injection H as <-. left. reflexivity.
  - lia.
  - lia.
  - reflexivity.
  - discriminate.
  - discriminate.
  - reflexivity.
Defined.

(** ** Feature selection *)

(** the first of the names that no band of the image carries *)
Definition first_missing (names avail : list string) : option string :=
  find (fun n => negb (existsb (String.eqb n) avail)) names.

Lemma lookup_none_iff (n : string) (img : Image) :
  lookup n img = None <-> existsb (String.eqb n) (bandNames img) = false.
Proof.
  induction img as [|[m b] img IH]; cbn [lookup bandNames map fst existsb];
    [tauto|].
  fold (bandNames img). destruct (String.eqb n m); cbn [orb]; [|exact IH].
  split; discriminate.
Qed.

Lemma select_first_missing (names : list string) (img : Image) (n : string) :
  first_missing names (bandNames img) = Some n ->
  select names img = Raise (ServerError (String.append "Image.select: no band " n))
  /\ In n names
  /\ ~ In n (bandNames img).
Proof.
  unfold first_missing.
  induction names as [|a names IH]; cbn [find select]; [discriminate|].
  destruct (existsb (String.eqb a) (bandNames img)) eqn:E; cbn [negb].
  - intros H. destruct (IH H) as (S1 & S2 & S3).
    destruct (lookup a img) eqn:L.
    + rewrite S1. cbn [bind]. repeat split; [now right|exact S3].
    + apply lookup_none_iff in L. congruence.
  - intros H. injection H as <-.
    rewrite (proj2 (lookup_none_iff a img) E).
    repeat split; [now left|].
    intros I. assert (X : existsb (String.eqb a) (bandNames img) = true).
    { apply existsb_exists. exists a. split; [exact I|apply String.eqb_refl]. }
    congruence.
Qed.

(** The band names of the first-order texture image, as the Texture
    Extractor builds it, are the ones the name table holds. *)
Lemma addFirstOrderTexture_bandNames (img : Image) :
  bandNames img = SR_BANDS ->
  exists out,
    addFirstOrderTexture img = Ok out /\ bandNames out = textureFeatures1_bandNames.
Proof.
  intros H. destruct (composite_of_names img H) as (b1 & b2 & b3 & b4 & b5 & b7 & ->).
  eexists. split; reflexivity.
Qed.

Lemma every_list_misses_a_band :
  forallb (fun names =>
             match first_missing names fullFeatureImage_bandNames with
             | Some _ => true
             | None => false
             end) featsList = true.
Proof. vm_compute. reflexivity. Qed.

(** X26.  For every ecoregion (1 to 35) the optimal feature subset of the
    mapping script names a band that the full feature image does not
    carry, so selecting the subset fails: the subsets use other names
    ([_r_m_3], [_r_m_5], [_v_5], [_r_sl], [_c_ac]) than the feature
    builder gives ([_rol_3y], [_rol_5y], [_vola_5y], [_reco_s]). *)
Theorem no_ecoregion_can_select_its_optimal_features :
  forall (ECOREGION_ID : Z) (fullFeatureImage : Image),
    (1 <= ECOREGION_ID <= 35)%Z ->
    bandNames fullFeatureImage = fullFeatureImage_bandNames ->
    exists names n,
      optimalFeatures ECOREGION_ID = Some names
      /\ In n names
      /\ ~ In n (bandNames fullFeatureImage)
      /\ selectedFeatures names fullFeatureImage
         = Raise (ServerError (String.append "Image.select: no band " n)).
Proof.
  intros id img Hid Hn.
  unfold optimalFeatures. destruct (Z.ltb_spec id 1) as [L|_]; [lia|].
  destruct (nth_error featsList (Z.to_nat (id - 1))) as [names|] eqn:E.
  - pose proof every_list_misses_a_band as F. rewrite forallb_forall in F.
    specialize (F names (nth_error_In _ _ E)). rewrite <- Hn in F.
    destruct (first_missing names (bandNames img)) as [n|] eqn:M; [|discriminate].
    destruct (select_first_missing names img n M) as (S1 & S2 & S3).
    exists names, n. unfold selectedFeatures. tauto.
  - apply nth_error_None in E. change (List.length featsList) with 35%nat in E. lia.
Qed.

(** an image with the given band names, 0 at every pixel *)
Definition image_of_names (names : list string) : Image :=
  map (fun n => (n, flat 0)) names.

Lemma no_ecoregion_can_select_its_optimal_features_witness :
  exists names n,
    optimalFeatures 20 = Some names
    /\ In n names
    /\ ~ In n (bandNames (image_of_names fullFeatureImage_bandNames))
    /\ selectedFeatures names (image_of_names fullFeatureImage_bandNames)
       = Raise (ServerError (String.append "Image.select: no band " n)).
Proof.
  apply (no_ecoregion_can_select_its_optimal_features
           20%Z (image_of_names fullFeatureImage_bandNames)).
  - lia.
  - vm_compute. reflexivity.
Defined.

End MappingFacts.
